(** * dagster-cloud: cost uploader and process run launcher

    A shallow embedding of

    - [dagster_cloud/dagster_insights/metrics_utils.py]
      ([get_url_and_token_from_instance], [get_post_request_params],
      [upload_cost_information], [put_cost_information]) and
    - [dagster_cloud/execution/cloud_run_launcher/process.py]
      ([CloudProcessRunLauncher]: [launch_run], [_get_pid],
      [can_terminate], [terminate]).

    Python functions become computations in a small state-and-error monad:
    the state holds the run storage of the orchestration framework and the
    trace of calls made to external collaborators (file system, HTTP
    session, operating system, run storage); a raised exception is the
    left injection of the result. *)

From Stdlib Require Import ZArith Lia Bool List Ascii String PrimFloat.
From stdpp Require Import base option list strings pretty gmap.

#[local] Set Warnings "-register-all".

Local Open Scope string_scope.
Local Open Scope Z_scope.

(** ** Python values shared by both modules *)

Module Py.

(** Exception classes that the two modules raise themselves or receive
    from their collaborators.  [OtherError] stands for any class of a
    collaborator that derives directly from [Exception]. *)
Inductive exc_class :=
| Exception
| ImportError
| ModuleNotFoundError
| RuntimeError
| AssertionError
| ValueError
| TypeError
| CheckError
| DagsterCloudHTTPError
| OtherError (name : string).

(** JSON documents as [Response.json()] returns them: a dict for an
    object, a list for an array. *)
Inductive json :=
| JNull
| JBool (b : bool)
| JNum (literal : string)
| JStr (s : string)
| JArr (items : list json)
| JObj (members : gmap string json).

(** What an exception carries besides its class. *)
Inductive exc_detail :=
| Msg (text : string)
| HttpDetail (status : Z) (body : string)
| Payload (value : json).

(** [cause] is the [__cause__] set by [raise ... from e]. *)
Inductive exn :=
| Exn (cls : exc_class) (detail : exc_detail) (cause : option exn).

Definition exn_class (e : exn) : exc_class :=
  match e with Exn c _ _ => c end.
Definition exn_detail (e : exn) : exc_detail :=
  match e with Exn _ d _ => d end.
Definition exn_cause (e : exn) : option exn :=
  match e with Exn _ _ c => c end.

(** The base class of a class in the interpreter's hierarchy. *)
Definition base_class (c : exc_class) : option exc_class :=
  match c with
  | Exception => None
  | ModuleNotFoundError => Some ImportError
  | _ => Some Exception
  end.

Definition exc_class_eqb (a b : exc_class) : bool :=
  match a, b with
  | Exception, Exception
  | ImportError, ImportError
  | ModuleNotFoundError, ModuleNotFoundError
  | RuntimeError, RuntimeError
  | AssertionError, AssertionError
  | ValueError, ValueError
  | TypeError, TypeError
  | CheckError, CheckError
  | DagsterCloudHTTPError, DagsterCloudHTTPError => true
  | OtherError n, OtherError m => String.eqb n m
  | _, _ => false
  end.

(** [issubclass c target]; the hierarchy has depth two. *)
Definition issubclass (c target : exc_class) : bool :=
  exc_class_eqb c target
  || match base_class c with
     | Some p =>
         exc_class_eqb p target
         || match base_class p with
            | Some q => exc_class_eqb q target
            | None => false
            end
     | None => false
     end.

(** [isinstance(e, target)], which is what an [except target] clause
    tests. *)
Definition isinstance (e : exn) (target : exc_class) : bool :=
  issubclass (exn_class e) target.

(** *** Strings

    A Python [str] is modelled by a [string] whose characters are the code
    points below 256. *)

(** [needle in hay] on two strings: substring test. *)
Fixpoint str_contains (needle hay : string) : bool :=
  String.prefix needle hay
  || match hay with
     | EmptyString => false
     | String _ rest => str_contains needle rest
     end.

(** [os.path.join(a, b)] on a POSIX system, for two components. *)
Definition os_path_join (a b : string) : string :=
  match b with
  | String "/" _ => b
  | _ =>
      match a with
      | EmptyString => b
      | _ =>
          if String.eqb (String.substring (String.length a - 1)%nat 1 a) "/"
          then a +:+ b
          else a +:+ "/" +:+ b
      end
  end.

(** *** [int(s)] and [str(n)]

    [int] on a string, base ten, as the interpreter parses it: white space
    around the literal is skipped, one sign may precede the digits, and
    single underscores may separate digits.  The white space of the code
    points below 256 is tab to carriage return, space, NEL and the
    no-break space.  The interpreter's optional cap on the number of
    digits is not part of the model. *)

Definition is_space (c : ascii) : bool :=
  let n := Z.of_N (N_of_ascii c) in
  ((9 <=? n) && (n <=? 13)) || (n =? 32) || (n =? 133) || (n =? 160).

Definition digit_value (c : ascii) : option Z :=
  let n := Z.of_N (N_of_ascii c) in
  if (48 <=? n) && (n <=? 57) then Some (n - 48) else None.

Fixpoint skip_spaces (s : string) : string :=
  match s with
  | String c rest => if is_space c then skip_spaces rest else s
  | EmptyString => EmptyString
  end.

(** The digit loop: [prev_us] tells whether the previous character was an
    underscore, [ndigits] counts the digits seen, [acc] is their value.
    Two underscores in a row and an underscore at the end are errors. *)
Fixpoint scan_digits (s : string) (prev_us : bool) (ndigits : nat) (acc : Z)
  : option (Z * nat * string) :=
  match s with
  | String c rest =>
      if Ascii.eqb c "_"
      then if prev_us then None else scan_digits rest true ndigits acc
      else
        match digit_value c with
        | Some d => scan_digits rest false (S ndigits) (10 * acc + d)
        | None => if prev_us then None else Some (acc, ndigits, s)
        end
  | EmptyString => if prev_us then None else Some (acc, ndigits, EmptyString)
  end.

(** The literal after the sign: it may not start with an underscore, has
    at least one digit, and only white space may follow it. *)
Definition parse_unsigned (s : string) : option Z :=
  if String.prefix "_" s then None
  else
    match scan_digits s false 0 0 with
    | Some (v, n, rest) =>
        match n, skip_spaces rest with
        | S _, EmptyString => Some v
        | _, _ => None
        end
    | None => None
    end.

(** [None] stands for the [ValueError] that [int] raises. *)
Definition py_int (s : string) : option Z :=
  match skip_spaces s with
  | String c rest =>
      if Ascii.eqb c "+" then parse_unsigned rest
      else if Ascii.eqb c "-" then Z.opp <$> parse_unsigned rest
      else parse_unsigned (String c rest)
  | EmptyString => parse_unsigned EmptyString
  end.

(** The characters that can occur in a string that [int] accepts. *)
Definition literal_char (c : ascii) : bool :=
  is_space c || bool_decide (is_Some (digit_value c))
  || Ascii.eqb c "_" || Ascii.eqb c "+" || Ascii.eqb c "-".

Fixpoint string_forallb (p : ascii → bool) (s : string) : bool :=
  match s with
  | EmptyString => true
  | String c rest => p c && string_forallb p rest
  end.

(** [str(n)] for an integer: decimal digits, with a minus sign for a
    negative number. *)
Definition py_str (n : Z) : string := pretty n.

(** Truth value of an optional integer ([None] and [0] are false), which
    is what [if not pid] tests. *)
Definition truthy (pid : option Z) : bool :=
  match pid with
  | None => false
  | Some n => negb (n =? 0)
  end.

End Py.

Import Py.

(** ** Data model *)

(** Modelled from the spec: [TaskStatus] of [dagster_cloud.execution.utils]
    is declared outside the two source files; the spec names the observed
    liveness of a process as RUNNING or NOT_RUNNING. *)
Inductive TaskStatus := RUNNING | NOT_RUNNING.

Definition TaskStatus_eqb (a b : TaskStatus) : bool :=
  match a, b with
  | RUNNING, RUNNING | NOT_RUNNING, NOT_RUNNING => true
  | _, _ => false
  end.

(** A run of the framework, as far as the launcher looks at it: its id,
    the [is_finished] property and its tags. *)
Record DagsterRun := {
  run_id : string;
  is_finished : bool;
  tags : gmap string string;
}.

(** [ExecuteRunArgs], the bundle that identifies what the spawned process
    has to execute. *)
Record ExecuteRunArgs := {
  pipeline_origin : string;
  pipeline_run_id : string;
  instance_ref : string;
}.

(** A [pyarrow] array.  An empty Python list gives an array of the null
    type. *)
Inductive pa_array :=
| NullArray (n : nat)
| StringArray (values : list string)
| DoubleArray (values : list float).

Definition pa_len (a : pa_array) : nat :=
  match a with
  | NullArray n => n
  | StringArray l => length l
  | DoubleArray l => length l
  end.

Inductive cell :=
| CNull
| CStr (s : string)
| CDouble (x : float).

Definition pa_get (a : pa_array) (i : nat) : option cell :=
  match a with
  | NullArray n => if decide (i < n)%nat then Some CNull else None
  | StringArray l => CStr <$> l !! i
  | DoubleArray l => CDouble <$> l !! i
  end.

(** A [pyarrow.Table]: column names and columns, in order. *)
Record pa_table := {
  names : list string;
  columns : list pa_array;
}.

Definition num_rows (t : pa_table) : nat :=
  match columns t with
  | [] => 0%nat
  | c :: _ => pa_len c
  end.

Definition num_columns (t : pa_table) : nat := length (columns t).

(** Position of the first column called [name]. *)
Fixpoint index_of (name : string) (l : list string) : option nat :=
  match l with
  | [] => None
  | x :: rest => if String.eqb x name then Some 0%nat else S <$> index_of name rest
  end.

Definition column (t : pa_table) (name : string) : option pa_array :=
  i ← index_of name (names t); columns t !! i.

(** The value of row [i] in the column called [name]. *)
Definition table_cell (t : pa_table) (name : string) (i : nat) : option cell :=
  c ← column t name; pa_get c i.

(** A table is well formed when it has a name for each column and all
    columns have the same length. *)
Definition well_formed (t : pa_table) : Prop :=
  length (names t) = length (columns t)
  ∧ Forall (λ c, pa_len c = num_rows t) (columns t).

(** [(opaque_id, cost, query_id)] *)
Abbreviation CostRecord := (string * float * string)%type.

(** The two shapes of [Session.post] calls that the uploader makes:
    the request for an upload destination, and the multipart form post
    of a file (given by its path) to that destination. *)
Inductive http_call :=
| PostRequest (url : string) (headers : gmap string string) (timeout : Z)
    (proxies : option (gmap string string))
| PostForm (url : json) (data : json) (file : string).

(** A response: [json_body] is what [Response.json()] gives, the parsed
    body or the error of the parser. *)
Record Response := {
  status_code : Z;
  text : string;
  json_body : exn + json;
}.

(** An HTTP session answers a call with a response or raises. *)
Record Session := {
  session_post : http_call → exn + Response;
}.

Inductive DagsterCloudInstanceScope := DEPLOYMENT | ORGANIZATION.

(** The attributes that only an agent instance has. *)
Record AgentAttributes := {
  dagit_url : string;
  dagster_cloud_agent_token : string;
  requests_managed_retries_session : Session;
  dagster_cloud_gen_insights_url_url : string;
  dagster_cloud_api_headers : DagsterCloudInstanceScope → gmap string string;
  dagster_cloud_api_timeout : Z;
  dagster_cloud_api_proxies : option (gmap string string);
}.

(** A [DagsterInstance] is either a plain instance or a
    [DagsterCloudAgentInstance]; [get_ref] is what [instance.get_ref()]
    returns. *)
Inductive instance_variant :=
| PlainInstance
| CloudAgentInstance (attrs : AgentAttributes).

Record DagsterInstance := {
  variant : instance_variant;
  get_ref : string;
}.

(** Calls to external collaborators, in the order they are made. *)
Inductive event :=
| TempDirCreated (dir : string)
| TempDirRemoved (dir : string)
| ParquetWritten (path : string) (table : pa_table)
| FileOpened (path : string)
| FileClosed (path : string)
| HttpPost (call : http_call)
| ProcessLaunched (args : ExecuteRunArgs) (pid : Z)
| ProcessChecked (pid : Z)
| ProcessKilled (pid : Z)
| RunTagsAdded (id : string) (new_tags : gmap string string)
| RunCancelingReported (run : DagsterRun).


Definition is_file_post (ev : event) : bool :=
  match ev with HttpPost (PostForm _ _ _) => true | _ => false end.


Definition is_process_signal (ev : event) : bool :=
  match ev with ProcessKilled _ => true | _ => false end.


Definition is_cancel_notification (ev : event) : bool :=
  match ev with RunCancelingReported _ => true | _ => false end.

Definition count_events (p : event → bool) (tr : list event) : nat :=
  length (filter (λ ev, p ev = true) tr).

(** The state that the code acts on: the run storage of the framework and
    the trace of calls made so far. *)
Record World := {
  runs : gmap string DagsterRun;
  trace : list event;
}.

(** ** The monad of Python computations *)

Definition M (A : Type) : Type := World → (exn + A) * World.

Definition ret {A} (a : A) : M A := λ w, (inr a, w).

Definition raise {A} (e : exn) : M A := λ w, (inl e, w).

Definition bind {A B} (m : M A) (k : A → M B) : M B :=
  λ w, match m w with
       | (inl e, w') => (inl e, w')
       | (inr a, w') => k a w'
       end.

Declare Scope py_scope.
Delimit Scope py_scope with py.
Notation "x <- m ;; k" := (bind m (λ x, k))
  (at level 100, m at next level, right associativity) : py_scope.
Notation "m ;; k" := (bind m (λ _, k))
  (at level 100, right associativity) : py_scope.
Local Open Scope py_scope.

(** A call to a collaborator is appended to the trace. *)
Definition emit (ev : event) : M unit :=
  λ w, (inr tt, {| runs := runs w; trace := trace w ++ [ev] |}).

(** The result of a call that may raise. *)
Definition lift {A} (r : exn + A) : M A :=
  match r with
  | inl e => raise e
  | inr a => ret a
  end.

(** [try: m  except cls as e: handler e] *)
Definition try_except {A} (m : M A) (cls : exc_class) (handler : exn → M A) : M A :=
  λ w, match m w with
       | (inl e, w') => if isinstance e cls then handler e w' else (inl e, w')
       | (inr a, w') => (inr a, w')
       end.

(** [with] on a context manager that does not swallow exceptions: [leave]
    runs on every way out of the body. *)
Definition with_ {A R} (enter : M R) (leave : R → M unit) (body : R → M A) : M A :=
  r <- enter ;;
  λ w, match body r w with
       | (res, w') =>
           match leave r w' with
           | (inl e, w'') => (inl e, w'')
           | (inr _, w'') => (res, w'')
           end
       end.

(** [raise cls(text)] *)
Definition raise_msg {A} (cls : exc_class) (text : string) : M A :=
  raise (Exn cls (Msg text) None).

(** ** [dagster_insights/metrics_utils.py] *)

Module MetricsUtils.

(** What the interpreter and the operating system decide for one call of
    the uploader: which modules can be imported, and the directory that
    [tempfile.TemporaryDirectory()] creates. *)
Record Env := {
  installed : string → bool;
  temp_dir : string;
}.

(** The execution context of an op or asset, as far as the uploader looks
    at it. *)
Record ExecutionContext := {
  instance : DagsterInstance;
}.

(** [import name] *)
Definition import_ (env : Env) (name : string) : M unit :=
  if installed env name then ret tt
  else raise_msg ModuleNotFoundError ("No module named '" +:+ name +:+ "'").

(** [pa.array] on a list of strings and on a list of floats. *)
Definition pa_array_str (l : list string) : pa_array :=
  match l with
  | [] => NullArray 0
  | _ => StringArray l
  end.

Definition pa_array_float (l : list float) : pa_array :=
  match l with
  | [] => NullArray 0
  | _ => DoubleArray l
  end.

(** [pa.Table.from_arrays(arrays, names)]: refuses a list of names of the
    wrong length and columns of unequal length. *)
Definition Table_from_arrays (arrays : list pa_array) (column_names : list string)
  : exn + pa_table :=
  if negb (length column_names =? length arrays)%nat
  then inl (Exn ValueError (Msg "Length of names does not match length of arrays") None)
  else
    let t := {| names := column_names; columns := arrays |} in
    if forallb (λ c, (pa_len c =? num_rows t)%nat) arrays
    then inr t
    else inl (Exn ValueError (Msg "Column length does not match") None).

(** [pq.write_table(table, path)] *)
Definition write_table (table : pa_table) (path : string) : M unit :=
  emit (ParquetWritten path table).

(** [with tempfile.TemporaryDirectory() as temp_dir: body] *)
Definition with_temporary_directory {A} (env : Env) (body : string → M A) : M A :=
  with_ (emit (TempDirCreated (temp_dir env)) ;; ret (temp_dir env))
        (λ dir, emit (TempDirRemoved dir))
        body.

(** [with open(path, "rb") as f: body]; the file object is identified by
    its path. *)
Definition with_open {A} (path : string) (body : string → M A) : M A :=
  with_ (emit (FileOpened path) ;; ret path)
        (λ f, emit (FileClosed f))
        body.

(** [session.post(...)] *)
Definition post (session : Session) (call : http_call) : M Response :=
  emit (HttpPost call) ;;
  lift (session_post session call).

(** Modelled from the spec: what a success status is belongs to
    [raise_http_error]; the spec calls the failure a non-2xx response. *)
Definition is_success (status : Z) : bool := (200 <=? status) && (status <? 300).

(** Modelled from the spec: [raise_http_error] of
    [dagster_cloud_cli.core.errors] is defined outside the two source
    files.  The spec: if the response is not a success status, fail
    signaling an HTTP error with response-derived diagnostic detail. *)
Definition raise_http_error (resp : Response) : M unit :=
  if is_success (status_code resp) then ret tt
  else raise (Exn DagsterCloudHTTPError
                  (HttpDetail (status_code resp) (text resp)) None).

(** [resp.json()] *)
Definition response_json (resp : Response) : M json := lift (json_body resp).

(** [key in container] for a string key, by the type of the container. *)
Definition py_in (key : string) (container : json) : M bool :=
  match container with
  | JObj members => ret (bool_decide (is_Some (members !! key)))
  | JArr items =>
      ret (existsb (λ x, match x with JStr s => String.eqb s key | _ => false end) items)
  | JStr s => ret (str_contains key s)
  | JNull | JBool _ | JNum _ => raise_msg TypeError "argument is not iterable"
  end.

(** [container[key]] for a string key. *)
Definition py_getitem (container : json) (key : string) : M json :=
  match container with
  | JObj members =>
      match members !! key with
      | Some v => ret v
      | None => raise_msg (OtherError "KeyError") key
      end
  | JArr _ => raise_msg TypeError "list indices must be integers or slices, not str"
  | JStr _ => raise_msg TypeError "string indices must be integers"
  | JNull | JBool _ | JNum _ => raise_msg TypeError "object is not subscriptable"
  end.

(** [assert cond, detail] *)
Definition assert_ (cond : bool) (detail : json) : M unit :=
  if cond then ret tt else raise (Exn AssertionError (Payload detail) None).

Definition NOT_IN_CLOUD : string :=
  "This asset only functions in a running Dagster Cloud instance".

Definition get_url_and_token_from_instance (inst : DagsterInstance)
  : M (string * string) :=
  match variant inst with
  | PlainInstance => raise_msg RuntimeError NOT_IN_CLOUD
  | CloudAgentInstance a =>
      ret (dagit_url a +:+ "graphql", dagster_cloud_agent_token a)
  end.

Definition get_post_request_params (inst : DagsterInstance)
  : M (Session * string * gmap string string * Z * option (gmap string string)) :=
  match variant inst with
  | PlainInstance => raise_msg RuntimeError NOT_IN_CLOUD
  | CloudAgentInstance a =>
      ret (requests_managed_retries_session a,
           dagster_cloud_gen_insights_url_url a,
           dagster_cloud_api_headers a DEPLOYMENT,
           dagster_cloud_api_timeout a,
           dagster_cloud_api_proxies a)
  end.

(** The table that [upload_cost_information] builds from its arguments. *)
Definition cost_table (metric_name : string) (cost_information : list CostRecord)
  : exn + pa_table :=
  let opaque_ids := pa_array_str ((λ '(opaque_id, _, _), opaque_id) <$> cost_information) in
  let costs := pa_array_float ((λ '(_, cost, _), cost) <$> cost_information) in
  let query_ids := pa_array_str ((λ '(_, _, query_id), query_id) <$> cost_information) in
  let metric_names := pa_array_str ((λ '(_, _, _), metric_name) <$> cost_information) in
  Table_from_arrays
    [opaque_ids; costs; metric_names; query_ids]
    ["opaque_id"; "cost"; "metric_name"; "query_id"].

Definition upload_cost_information (env : Env) (context : ExecutionContext)
    (metric_name : string) (cost_information : list CostRecord) : M unit :=
  import_ env "pyarrow" ;;
  import_ env "pyarrow.parquet" ;;
  with_temporary_directory env (λ temp_dir,
    let cost_pq_file := os_path_join temp_dir "cost.parquet" in
    table <- lift (cost_table metric_name cost_information) ;;
    write_table table cost_pq_file ;;
    let inst := instance context in
    params <- get_post_request_params inst ;;
    let '(session, url, headers, timeout, proxies) := params in
    resp <- post session (PostRequest url headers timeout proxies) ;;
    raise_http_error resp ;;
    resp_data <- response_json resp ;;
    has_url <- py_in "url" resp_data ;;
    has_both <- (if has_url then py_in "fields" resp_data else ret false) ;;
    assert_ has_both resp_data ;;
    with_open cost_pq_file (λ f,
      dest <- py_getitem resp_data "url" ;;
      form <- py_getitem resp_data "fields" ;;
      post session (PostForm dest form f) ;;
      ret tt)).

Definition INSTALL_EXTRA : string :=
  "Dagster insights dependencies not installed. Install dagster-cloud[insights] to use this feature.".

Definition put_cost_information (env : Env) (context : ExecutionContext)
    (metric_name : string) (cost_information : list CostRecord)
    (start end_ : float) : M unit :=
  try_except
    (upload_cost_information env context metric_name cost_information)
    ImportError
    (λ e, raise (Exn Exception (Msg INSTALL_EXTRA) (Some e))).

End MetricsUtils.

(** ** [execution/cloud_run_launcher/process.py] *)

Module Process.

Definition PID_TAG : string := "process/pid".

(** Modelled from the spec: [launch_process], [check_on_process] and
    [kill_process] of [dagster_cloud.execution.utils.process] are defined
    outside the two source files.  The spec: launch spawns a new OS process
    with the given arguments and yields its process id; liveness is queried
    by pid and is RUNNING or NOT_RUNNING; termination sends a signal to the
    process by pid, and a signal to a dead pid is not propagated as an
    error.  What the operating system answers is a parameter. *)
Record OS := {
  spawn : ExecuteRunArgs → Z;
  liveness : Z → TaskStatus;
}.

(** Modelled from the spec: [launch_process(args)] spawns one process and
    returns its pid. *)
Definition launch_process (os : OS) (args : ExecuteRunArgs) : M Z :=
  let pid := spawn os args in
  emit (ProcessLaunched args pid) ;;
  ret pid.

(** Modelled from the spec: [check_on_process(pid)] is one blocking
    liveness query. *)
Definition check_on_process (os : OS) (pid : Z) : M TaskStatus :=
  emit (ProcessChecked pid) ;;
  ret (liveness os pid).

(** Modelled from the spec: [kill_process(pid)] sends the termination
    signal and returns. *)
Definition kill_process (pid : Z) : M unit :=
  emit (ProcessKilled pid).

(** The run API of the instance, which belongs to the framework: runs
    are looked up by id; the run-tag API stores string tags on the run
    record, last write wins; reporting a run as canceling notifies the
    run-state machine of the framework. *)
Definition get_run_by_id (id : string) : M (option DagsterRun) :=
  λ w, (inr (runs w !! id), w).

Definition with_tags (new_tags : gmap string string) (run : DagsterRun) : DagsterRun :=
  {| run_id := run_id run;
     is_finished := is_finished run;
     tags := new_tags ∪ tags run |}.

Definition add_run_tags (id : string) (new_tags : gmap string string) : M unit :=
  emit (RunTagsAdded id new_tags) ;;
  λ w, (inr tt, {| runs := alter (with_tags new_tags) id (runs w); trace := trace w |}).

Definition report_run_canceling (run : DagsterRun) : M unit :=
  emit (RunCancelingReported run).

(** [check.not_none(value)] of the framework's check module. *)
Definition check_not_none {A} (value : option A) : M A :=
  match value with
  | Some v => ret v
  | None => raise_msg CheckError "Expected non-None value"
  end.

Record LaunchRunContext := {
  pipeline_run : DagsterRun;
  pipeline_code_origin : option string;
}.

(** [run_args.get_command_args()]: the command line is determined by the
    bundle, which stands for it. *)
Definition get_command_args (run_args : ExecuteRunArgs) : ExecuteRunArgs := run_args.

Record CloudProcessRunLauncher := {
  _instance : DagsterInstance;
}.

Definition launch_run (os : OS) (self : CloudProcessRunLauncher)
    (context : LaunchRunContext) : M unit :=
  let run := pipeline_run context in
  origin <- check_not_none (pipeline_code_origin context) ;;
  let run_args :=
    {| pipeline_origin := origin;
       pipeline_run_id := run_id run;
       instance_ref := get_ref (_instance self) |} in
  let args := get_command_args run_args in
  pid <- launch_process os args ;;
  add_run_tags (run_id run) {[ PID_TAG := py_str pid ]}.

(** [_get_pid]: the result is [None], an integer, or the [ValueError] of
    [int]. *)
Definition _get_pid (run : option DagsterRun) : M (option Z) :=
  match run with
  | None => ret None
  | Some r =>
      if is_finished r then ret None
      else
        match tags r !! PID_TAG with
        | None => ret None
        | Some v =>
            match py_int v with
            | Some n => ret (Some n)
            | None =>
                raise_msg ValueError
                  ("invalid literal for int() with base 10: '" +:+ v +:+ "'")
            end
        end
  end.

(** [if not pid] holds for [None] and for the integer 0. *)
Definition can_terminate (os : OS) (self : CloudProcessRunLauncher)
    (id : string) : M bool :=
  run <- get_run_by_id id ;;
  match run with
  | None => ret false
  | Some _ =>
      pid <- _get_pid run ;;
      match pid with
      | None => ret false
      | Some n =>
          if negb (truthy pid) then ret false
          else
            status <- check_on_process os n ;;
            ret (TaskStatus_eqb status RUNNING)
      end
  end.

Definition terminate (os : OS) (self : CloudProcessRunLauncher)
    (id : string) : M bool :=
  run <- get_run_by_id id ;;
  match run with
  | None => ret false
  | Some r =>
      pid <- _get_pid run ;;
      match pid with
      | None => ret false
      | Some n =>
          if negb (truthy pid) then ret false
          else
            report_run_canceling r ;;
            kill_process n ;;
            ret true
      end
  end.

End Process.

Import MetricsUtils Process.

(** ** Observing a computation

    What a computation started in world [w] returns or raises, the calls
    it adds to the trace, and the run storage it leaves. *)

Definition result {A} (m : M A) (w : World) : exn + A := (m w).1.

Definition calls {A} (m : M A) (w : World) : list event :=
  drop (length (trace w)) (trace (m w).2).

Definition storage {A} (m : M A) (w : World) : gmap string DagsterRun :=
  runs (m w).2.

Definition tables_written (tr : list event) : list (string * pa_table) :=
  omap (λ ev, match ev with ParquetWritten p t => Some (p, t) | _ => None end) tr.

(** The path of the columnar file, and the request for the upload
    destination that the uploader builds from an agent instance. *)
Definition cost_pq_file (env : Env) : string :=
  os_path_join (temp_dir env) "cost.parquet".

Definition upload_url_request (a : AgentAttributes) : http_call :=
  PostRequest (dagster_cloud_gen_insights_url_url a)
    (dagster_cloud_api_headers a DEPLOYMENT)
    (dagster_cloud_api_timeout a) (dagster_cloud_api_proxies a).

(** The four columns that the uploader hands to [Table.from_arrays]. *)
Definition cost_columns (metric_name : string) (cost_information : list CostRecord)
  : list pa_array :=
  [ pa_array_str ((λ '(opaque_id, _, _), opaque_id) <$> cost_information);
    pa_array_float ((λ '(_, cost, _), cost) <$> cost_information);
    pa_array_str ((λ '(_, _, _), metric_name) <$> cost_information);
    pa_array_str ((λ '(_, _, query_id), query_id) <$> cost_information) ].

Definition built_table (metric_name : string) (cost_information : list CostRecord)
  : pa_table :=
  {| names := ["opaque_id"; "cost"; "metric_name"; "query_id"];
     columns := cost_columns metric_name cost_information |}.

Definition network_calls (tr : list event) : list http_call :=
  omap (λ ev, match ev with HttpPost c => Some c | _ => None end) tr.


(** ** Sample inputs *)

Module Sample.

Definition empty_world : World := {| runs := ∅; trace := [] |}.

Definition all_installed : Env :=
  {| installed := λ _, true; temp_dir := "/tmp/tmpk3v9" |}.

Definition nothing_installed : Env :=
  {| installed := λ _, false; temp_dir := "/tmp/tmpk3v9" |}.

(** A session that answers the request for a destination with [first] and
    the form post with [second]. *)
Definition session (first second : exn + Response) : Session :=
  {| session_post := λ call,
       match call with
       | PostRequest _ _ _ _ => first
       | PostForm _ _ _ => second
       end |}.

Definition attrs (s : Session) : AgentAttributes :=
  {| dagit_url := "https://org.dagster.cloud/prod/";
     dagster_cloud_agent_token := "token";
     requests_managed_retries_session := s;
     dagster_cloud_gen_insights_url_url := "https://org.dagster.cloud/prod/gen_insights_url";
     dagster_cloud_api_headers := λ _, {[ "Dagster-Cloud-Api-Token" := "token" ]};
     dagster_cloud_api_timeout := 60;
     dagster_cloud_api_proxies := None |}.

Definition agent (s : Session) : DagsterInstance :=
  {| variant := CloudAgentInstance (attrs s); get_ref := "instance-ref" |}.

Definition plain : DagsterInstance :=
  {| variant := PlainInstance; get_ref := "instance-ref" |}.

Definition response (status : Z) (body : exn + json) : Response :=
  {| status_code := status; text := "body"; json_body := body |}.

Definition destination_url : json := JStr "https://bucket.example/upload".

Definition destination_fields : json :=
  JObj {[ "key" := JStr "insights/cost.parquet" ]}.

Definition destination_members : gmap string json :=
  {[ "url" := destination_url; "fields" := destination_fields ]}.

Definition destination : json := JObj destination_members.

Definition costs : list CostRecord :=
  [ ("asset_a", 1.5%float, "query-1"); ("asset_b", 0.25%float, "query-2") ].

(** An operating system in which every pid is alive. *)
Definition os : OS := {| spawn := λ _, 4711; liveness := λ _, RUNNING |}.

Definition launcher : CloudProcessRunLauncher := {| _instance := plain |}.

Definition run_with_tag (value : string) : DagsterRun :=
  {| run_id := "run-1"; is_finished := false; tags := {[ PID_TAG := value ]} |}.

Definition world_with (run : DagsterRun) : World :=
  {| runs := {[ run_id run := run ]}; trace := [] |}.

Definition launch_context : LaunchRunContext :=
  {| pipeline_run := run_with_tag "1"; pipeline_code_origin := Some "origin" |}.

End Sample.

(** ** [query_graphql_from_instance] of [dagster_insights/metrics_utils.py] *)

Module Graphql.

(** The arguments that [RequestsHTTPTransport] and [Client] are built
    with. *)
Record RequestsHTTPTransport := {
  transport_url : string;
  use_json : bool;
  transport_timeout : Z;
  transport_headers : gmap string string;
}.

Record Client := {
  transport : RequestsHTTPTransport;
  fetch_schema_from_transport : bool;
}.

(** A parsed query; it stands for the text it was parsed from. *)
Inductive DocumentNode := Document (source : string).

(** The [gql] package: [gql(text)] parses a query or raises, and
    [client.execute(document, variable_values=...)] returns the answer of
    the endpoint or raises.  What they answer is a parameter; the requests
    that the client sends are its own and are not part of the trace. *)
Record GqlPackage := {
  gql : string → exn + DocumentNode;
  execute : Client → DocumentNode → gmap string json → exn + json;
}.

(** [variables or dict()]: [None] and the empty mapping give a new empty
    mapping. *)
Definition or_dict (variables : option (gmap string json)) : gmap string json :=
  match variables with
  | None => ∅
  | Some m => if decide (m = ∅) then ∅ else m
  end.

Definition query_graphql_from_instance (package : GqlPackage)
    (inst : DagsterInstance) (query_text : string)
    (variables : option (gmap string json)) : M json :=
  let headers : gmap string string := ∅ in
  r <- get_url_and_token_from_instance inst ;;
  let '(url, cloud_token) := r in
  let headers := <[ "Dagster-Cloud-API-Token" := cloud_token ]> headers in
  let transport :=
    {| transport_url := url;
       use_json := true;
       transport_timeout := 300;
       transport_headers := {[ "Dagster-Cloud-Api-Token" := cloud_token ]} |} in
  let client := {| transport := transport; fetch_schema_from_transport := true |} in
  document <- lift (gql package query_text) ;;
  lift (execute package client document (or_dict variables)).

End Graphql.

Import Graphql.

(** ** Reading a table back *)

(** Row [i] of a table as a cost record, when its three cells are there
    with the types of a record. *)
Definition table_record (t : pa_table) (i : nat) : option CostRecord :=
  match table_cell t "opaque_id" i, table_cell t "cost" i, table_cell t "query_id" i with
  | Some (CStr opaque_id), Some (CDouble cost), Some (CStr query_id) =>
      Some (opaque_id, cost, query_id)
  | _, _, _ => None
  end.

(** All rows of a table, in order. *)
Definition table_records (t : pa_table) : option (list CostRecord) :=
  mapM (table_record t) (seq 0 (num_rows t)).

(** ** More observations *)

Definition is_temp_dir_event (ev : event) : bool :=
  match ev with TempDirCreated _ | TempDirRemoved _ => true | _ => false end.

Definition is_file_open (ev : event) : bool :=
  match ev with FileOpened _ => true | _ => false end.

Definition is_file_close (ev : event) : bool :=
  match ev with FileClosed _ => true | _ => false end.

Definition is_liveness_query (ev : event) : bool :=
  match ev with ProcessChecked _ => true | _ => false end.

(** ** More sample inputs *)

Module Scenario.

(** An operating system in which no pid is alive. *)
Definition dead_os : OS := {| spawn := λ _, 4711; liveness := λ _, NOT_RUNNING |}.

(** A stored run that carries the pid tag of an earlier launch. *)
Definition stored_run : DagsterRun :=
  {| run_id := "run-1"; is_finished := false;
     tags := {[ PID_TAG := "17"; "team" := "data" ]} |}.

Definition stored_world : World := Sample.world_with stored_run.

Definition launch_context : LaunchRunContext :=
  {| pipeline_run := stored_run; pipeline_code_origin := Some "origin" |}.

(** Only [pyarrow] itself can be imported, not [pyarrow.parquet]. *)
Definition only_pyarrow : Env :=
  {| installed := λ name, String.eqb name "pyarrow"; temp_dir := "/tmp/tmpk3v9" |}.

(** An error that a collaborator raises while it imports a module of its
    own. *)
Definition import_error : exn :=
  Exn ImportError (Msg "cannot import name 'HTTPAdapter'") None.

Definition connection_error : exn :=
  Exn (OtherError "ConnectionError") (Msg "connection refused") None.

(** A [gql] package whose parser refuses every text and whose client
    fails on every call. *)
Definition refusing_package : GqlPackage :=
  {| gql := λ _, inl (Exn (OtherError "GraphQLSyntaxError") (Msg "Syntax Error") None);
     execute := λ _ _ _, inl connection_error |}.

(** A [gql] package whose client answers with the URL, the time-out and
    the variables it was called with. *)
Definition echo_package : GqlPackage :=
  {| gql := λ text, inr (Document text);
     execute := λ client _ variables,
       inr (JObj {[ "url" := JStr (transport_url (transport client));
                    "timeout" := JNum (py_str (transport_timeout (transport client)));
                    "variables" := JObj variables ]}) |}.

(** An agent instance with the URL and token of [Sample.attrs] and other
    settings for the API. *)
Definition other_attrs : AgentAttributes :=
  {| dagit_url := "https://org.dagster.cloud/prod/";
     dagster_cloud_agent_token := "token";
     requests_managed_retries_session :=
       Sample.session (inl connection_error) (inl connection_error);
     dagster_cloud_gen_insights_url_url := "https://elsewhere.example/";
     dagster_cloud_api_headers := λ _, ∅;
     dagster_cloud_api_timeout := 5;
     dagster_cloud_api_proxies := Some {[ "https" := "http://proxy.example:3128" ]} |}.

End Scenario.

(** * Properties *)

(** ** The model of [int] and of [os.path.join] on examples *)

Example py_int_plain : py_int "4711" = Some 4711.
Proof. reflexivity. Qed.
Example py_int_spaces_sign : py_int "  -1_000 " = Some (-1000).
Proof. reflexivity. Qed.
Example py_int_rejects_word : py_int "abc" = None.
Proof. reflexivity. Qed.
Example py_int_rejects_empty : py_int "" = None.
Proof. reflexivity. Qed.
Example py_int_rejects_float : py_int "12.5" = None.
Proof. reflexivity. Qed.
Example py_int_rejects_double_underscore : py_int "1__0" = None.
Proof. reflexivity. Qed.
Example py_str_negative : py_str (-42) = "-42".
Proof. reflexivity. Qed.
Example os_path_join_plain : os_path_join "/tmp/abc" "cost.parquet" = "/tmp/abc/cost.parquet".
Proof. reflexivity. Qed.

(** ** [int] and [str] *)

Lemma digit_char d :
  (d < 10)%N →
  digit_value (pretty_N_char d) = Some (Z.of_N d)
  ∧ is_space (pretty_N_char d) = false
  ∧ Ascii.eqb (pretty_N_char d) "_" = false
  ∧ Ascii.eqb (pretty_N_char d) "+" = false
  ∧ Ascii.eqb (pretty_N_char d) "-" = false.
Proof.
  intros Hd.
  assert (d = 0 ∨ d = 1 ∨ d = 2 ∨ d = 3 ∨ d = 4 ∨ d = 5 ∨ d = 6 ∨ d = 7
          ∨ d = 8 ∨ d = 9)%N as Hcases by lia.
  repeat destruct Hcases as [->|Hcases]; try subst d; done.
Qed.

(** The digits that [str] writes for [x], followed by [s], are read back
    as [x] appended to what was read before. *)
Lemma scan_digits_pretty_go x :
  ∃ (m : nat) (p : Z),
    ((0 < x)%N → (0 < m)%nat)
    ∧ ∀ s k acc,
        scan_digits (pretty_N_go x s) false k acc
        = scan_digits s false (m + k) (acc * p + Z.of_N x).
Proof.
  induction (N.lt_wf_0 x) as [x _ IH].
  destruct (decide (x = 0)%N) as [->|Hx].
  { exists 0%nat, 1. split; [lia|]. intros s k acc.
    rewrite pretty_N_go_0. f_equal. lia. }
  destruct (IH (x `div` 10)%N) as (m & p & _ & Hscan).
  { apply N.div_lt; lia. }
  exists (S m), (10 * p). split; [lia|]. intros s k acc.
  rewrite pretty_N_go_step by lia. rewrite Hscan.
  destruct (digit_char (x `mod` 10)%N) as (Hd & _ & Hu & _).
  { apply N.mod_lt. lia. }
  cbn [scan_digits]. rewrite Hu, Hd.
  pose proof (N.div_mod x 10 ltac:(lia)).
  f_equal; lia.
Qed.

Lemma pretty_go_starts_with_digit x s :
  (0 < x)%N →
  ∃ d rest, (d < 10)%N ∧ pretty_N_go x s = String (pretty_N_char d) rest.
Proof.
  revert s. induction (N.lt_wf_0 x) as [x _ IH]. intros s Hx.
  rewrite pretty_N_go_step by done.
  destruct (decide (x `div` 10 = 0)%N) as [->|Hdiv].
  - rewrite pretty_N_go_0. eexists _, _. split; [|done]. apply N.mod_lt. lia.
  - apply IH; [apply N.div_lt; lia | by apply N.neq_0_lt_0].
Qed.

Lemma parse_unsigned_pretty_go x :
  (0 < x)%N → parse_unsigned (pretty_N_go x "") = Some (Z.of_N x).
Proof.
  intros Hx.
  destruct (pretty_go_starts_with_digit x "" Hx) as (d & rest & Hd & Heq).
  destruct (scan_digits_pretty_go x) as (m & p & Hm & Hscan).
  specialize (Hm Hx). specialize (Hscan "" 0%nat 0).
  destruct (digit_char d Hd) as (_ & _ & Hu & _).
  unfold parse_unsigned. rewrite Hscan.
  rewrite Heq. cbn [String.prefix]. 
  destruct (ascii_dec "_" (pretty_N_char d)) as [Hc|_].
  { rewrite <-Hc in Hu. done. }
  destruct m; [lia|]. simpl. f_equal; lia.
Qed.

(** Reading back what [str] wrote gives the integer. *)
Lemma py_int_py_str n : py_int (py_str n) = Some n.
Proof.
  unfold py_str, pretty, pretty_Z.
  destruct n as [|x|x]; [done|..];
    unfold pretty, pretty_positive, pretty, pretty_N;
    (destruct (decide (N.pos x = 0)%N); [done|]);
    pose proof (parse_unsigned_pretty_go (N.pos x) ltac:(lia)) as Hparse.
  - destruct (pretty_go_starts_with_digit (N.pos x) "" ltac:(lia))
      as (d & rest & Hd & Heq).
    destruct (digit_char d Hd) as (_ & Hs & _ & Hplus & Hminus).
    unfold py_int. rewrite Heq in *. cbn [skip_spaces].
    by rewrite Hs, Hplus, Hminus.
  - unfold py_int.
    replace ("-" +:+ pretty_N_go (N.pos x) "")
      with (String "-" (pretty_N_go (N.pos x) "")) by done.
    cbn [skip_spaces]. change (is_space "-") with false. cbn iota.
    change (Ascii.eqb "-" "+") with false. change (Ascii.eqb "-" "-") with true.
    cbn iota. by rewrite Hparse.
Qed.

(** A string that [int] accepts is made of white space, digits,
    underscores and signs. *)
Lemma skip_spaces_literal s :
  string_forallb literal_char (skip_spaces s) = true →
  string_forallb literal_char s = true.
Proof.
  induction s as [|c s IH]; [done|]. cbn [skip_spaces].
  destruct (is_space c) eqn:Hc; [|done].
  intros H. cbn [string_forallb]. rewrite (IH H).
  unfold literal_char. by rewrite Hc.
Qed.

Lemma skip_spaces_empty_literal s :
  skip_spaces s = "" → string_forallb literal_char s = true.
Proof. intros H. apply skip_spaces_literal. by rewrite H. Qed.

Lemma scan_digits_literal s prev_us n acc v n' rest :
  scan_digits s prev_us n acc = Some (v, n', rest) →
  string_forallb literal_char rest = true →
  string_forallb literal_char s = true.
Proof.
  revert prev_us n acc. induction s as [|c s IH]; intros prev_us n acc.
  { simpl. destruct prev_us; [done|]. by intros [= <- <- <-]. }
  cbn [scan_digits string_forallb].
  destruct (Ascii.eqb c "_") eqn:Hu.
  - destruct prev_us; [done|]. intros H Hrest.
    rewrite (IH _ _ _ H Hrest). unfold literal_char. rewrite Hu.
    by rewrite !orb_true_r.
  - destruct (digit_value c) as [d|] eqn:Hd.
    + intros H Hrest. rewrite (IH _ _ _ H Hrest).
      unfold literal_char. rewrite Hd. simpl. by rewrite !orb_true_r.
    + destruct prev_us; [done|]. intros [= <- <- <-]. done.
Qed.

Lemma parse_unsigned_literal s v :
  parse_unsigned s = Some v → string_forallb literal_char s = true.
Proof.
  unfold parse_unsigned. destruct (String.prefix "_" s); [done|].
  destruct (scan_digits s false 0 0) as [[[v' n] rest]|] eqn:Hscan; [|done].
  destruct n; [done|]. destruct (skip_spaces rest) eqn:Hrest; [|done].
  intros _. eapply scan_digits_literal; [done|].
  by apply skip_spaces_empty_literal.
Qed.

Lemma py_int_literal s n :
  py_int s = Some n → string_forallb literal_char s = true.
Proof.
  unfold py_int. intros H. apply skip_spaces_literal.
  destruct (skip_spaces s) as [|c rest]; [done|].
  cbn [string_forallb].
  destruct (Ascii.eqb c "+") eqn:Hplus; [|destruct (Ascii.eqb c "-") eqn:Hminus].
  - rewrite (parse_unsigned_literal rest n H).
    unfold literal_char. rewrite Hplus. by rewrite !orb_true_r.
  - destruct (parse_unsigned rest) as [v|] eqn:Hrest; [|done].
    rewrite (parse_unsigned_literal rest v Hrest).
    unfold literal_char. rewrite Hminus. by rewrite !orb_true_r.
  - by apply (parse_unsigned_literal (String c rest) n).
Qed.

(** A value with any other character, and the empty value, are refused. *)
Corollary py_int_refuses_other_characters s :
  string_forallb literal_char s = false → py_int s = None.
Proof.
  intros H. destruct (py_int s) as [n|] eqn:Hint; [|done].
  apply py_int_literal in Hint. congruence.
Qed.

(** ** Observations *)

Lemma observe {A} (m : M A) (w : World) res rs evs :
  m w = (res, {| runs := rs; trace := trace w ++ evs |}) →
  result m w = res ∧ calls m w = evs ∧ storage m w = rs.
Proof.
  intros H. unfold result, calls, storage. rewrite H. simpl.
  by rewrite drop_app_length.
Qed.

(** ** The cost uploader *)

Ltac run_upload :=
  cbv [upload_cost_information put_cost_information try_except
       with_temporary_directory with_open with_ import_ write_table post
       raise_http_error response_json get_post_request_params assert_
       py_in py_getitem raise_msg raise ret bind emit lift].

Ltac tidy_trace :=
  cbn -[cost_table built_table os_path_join];
  rewrite <-?app_assoc;
  cbn -[cost_table built_table os_path_join].

Ltac finish := eexists _, _; split_and!; reflexivity.

Lemma pa_len_array_str l : pa_len (pa_array_str l) = length l.
Proof. by destruct l. Qed.

Lemma pa_len_array_float l : pa_len (pa_array_float l) = length l.
Proof. by destruct l. Qed.

Lemma pa_get_array_str l i : pa_get (pa_array_str l) i = CStr <$> l !! i.
Proof. by destruct l. Qed.

Lemma pa_get_array_float l i : pa_get (pa_array_float l) i = CDouble <$> l !! i.
Proof. by destruct l. Qed.

(** [Table.from_arrays] never refuses the columns of the uploader. *)
Lemma cost_table_inr metric_name cost_information :
  cost_table metric_name cost_information
  = inr (built_table metric_name cost_information).
Proof.
  unfold built_table, cost_table, Table_from_arrays, cost_columns, num_rows. simpl.
  rewrite !pa_len_array_str, pa_len_array_float, !length_fmap, Nat.eqb_refl.
  done.
Qed.

Lemma cost_table_well_formed metric_name cost_information t :
  cost_table metric_name cost_information = inr t →
  well_formed t ∧ num_rows t = length cost_information.
Proof.
  rewrite cost_table_inr. intros [= <-].
  unfold well_formed, num_rows, built_table, cost_columns. simpl.
  rewrite !pa_len_array_str, !length_fmap.
  split; [split; [done|]|done].
  repeat constructor;
    by rewrite ?pa_len_array_str, ?pa_len_array_float, !length_fmap.
Qed.

(** Row [i] of the table holds the fields of record [i] and the metric
    name. *)
Lemma cost_table_row metric_name cost_information t i opaque_id cost query_id :
  cost_table metric_name cost_information = inr t →
  cost_information !! i = Some (opaque_id, cost, query_id) →
  table_cell t "opaque_id" i = Some (CStr opaque_id)
  ∧ table_cell t "cost" i = Some (CDouble cost)
  ∧ table_cell t "metric_name" i = Some (CStr metric_name)
  ∧ table_cell t "query_id" i = Some (CStr query_id).
Proof.
  rewrite cost_table_inr. intros [= <-] Hi.
  unfold table_cell, column, built_table, cost_columns. simpl.
  rewrite !pa_get_array_str, pa_get_array_float, !list_lookup_fmap, Hi.
  done.
Qed.

Lemma column_elem_of t name c : column t name = Some c → c ∈ columns t.
Proof.
  unfold column. intros H.
  destruct (index_of name (names t)) as [k|]; [|done].
  by apply list_elem_of_lookup_2 in H.
Qed.

(** No row beyond the records. *)
Lemma cost_table_no_more_rows metric_name cost_information t name i :
  cost_table metric_name cost_information = inr t →
  cost_information !! i = None →
  table_cell t name i = None.
Proof.
  rewrite cost_table_inr. intros [= <-] Hi.
  unfold table_cell.
  destruct (column _ name) as [c|] eqn:Hc; [|done].
  apply column_elem_of in Hc. unfold built_table, cost_columns in Hc. cbn [columns] in Hc.
  rewrite !elem_of_cons, elem_of_nil in Hc.
  destruct Hc as [->|[->|[->|[->|[]]]]]; cbn [mbind option_bind];
    by rewrite ?pa_get_array_str, ?pa_get_array_float, list_lookup_fmap, Hi.
Qed.

(** Once its imports succeed, the uploader creates its temporary
    directory, writes the table, writes no other table after it, and
    removes the directory as its last call, on every path. *)
Lemma upload_always_writes env context metric_name cost_information w :
  installed env "pyarrow" = true →
  installed env "pyarrow.parquet" = true →
  ∃ res rest,
    upload_cost_information env context metric_name cost_information w
    = (res, {| runs := runs w;
               trace := trace w ++
                 TempDirCreated (temp_dir env)
                 :: ParquetWritten (cost_pq_file env)
                      (built_table metric_name cost_information)
                 :: rest |})
    ∧ tables_written rest = []
    ∧ last rest = Some (TempDirRemoved (temp_dir env)).
Proof.
  intros H1 H2. unfold cost_pq_file.
  run_upload. rewrite H1, H2, cost_table_inr.
  cbn -[built_table os_path_join].
  destruct (variant (instance context)) as [|a]; tidy_trace; [finish|].
  destruct (session_post _ _) as [e|r]; tidy_trace; [finish|].
  destruct (is_success _); tidy_trace; [|finish].
  destruct (json_body r) as [e|[| | | |items|members]]; tidy_trace;
    try finish.
  - destruct (str_contains "url" s); [destruct (str_contains "fields" s)|];
      tidy_trace; finish.
  - destruct (existsb _ items); [destruct (existsb _ items)|];
      tidy_trace; finish.
  - destruct (members !! "url") as [u|]; [destruct (members !! "fields") as [f|]|];
      tidy_trace; try finish.
    destruct (session_post _ _) as [e|r2]; tidy_trace; finish.
Qed.

(** C1. For every list of cost records, the empty list included, and every
    metric name, the uploader (once its imports succeed) writes exactly one
    table, to the columnar file in its temporary directory; the table is
    well formed, has the columns opaque_id, cost, metric_name, query_id and
    one row per record: row [i] holds the opaque id, the cost and the query
    id of record [i], in order, and the metric name; there is no row beyond
    the records, so the empty list gives zero rows. *)
Theorem upload_writes_one_row_per_record
    env context metric_name (cost_information : list CostRecord) w :
  installed env "pyarrow" = true →
  installed env "pyarrow.parquet" = true →
  ∃ t,
    tables_written
      (calls (upload_cost_information env context metric_name cost_information) w)
    = [(cost_pq_file env, t)]
    ∧ well_formed t
    ∧ names t = ["opaque_id"; "cost"; "metric_name"; "query_id"]
    ∧ num_rows t = length cost_information
    ∧ (∀ i opaque_id cost query_id,
         cost_information !! i = Some (opaque_id, cost, query_id) →
         table_cell t "opaque_id" i = Some (CStr opaque_id)
         ∧ table_cell t "cost" i = Some (CDouble cost)
         ∧ table_cell t "metric_name" i = Some (CStr metric_name)
         ∧ table_cell t "query_id" i = Some (CStr query_id))
    ∧ (∀ i name, cost_information !! i = None → table_cell t name i = None).
Proof.
  intros H1 H2.
  destruct (upload_always_writes env context metric_name cost_information w H1 H2)
    as (res & rest & Hrun & Hrest & _).
  apply observe in Hrun as (_ & -> & _).
  pose proof (cost_table_inr metric_name cost_information) as Ht.
  eexists. split; [simpl; by rewrite Hrest|].
  destruct (cost_table_well_formed _ _ _ Ht) as [Hwf Hrows].
  split; [done|]. split; [done|]. split; [done|]. split.
  - intros i o c q Hi. by apply (cost_table_row _ _ _ _ _ _ _ Ht).
  - intros i name Hi. by apply (cost_table_no_more_rows _ _ _ _ _ Ht).
Qed.

Lemma upload_writes_one_row_per_record_witness :
  installed Sample.all_installed "pyarrow" = true
  ∧ installed Sample.all_installed "pyarrow.parquet" = true
  ∧ ∃ t,
      tables_written
        (calls (upload_cost_information Sample.all_installed
                  {| instance := Sample.plain |} "snowflake_credits" Sample.costs)
               Sample.empty_world)
      = [(cost_pq_file Sample.all_installed, t)]
      ∧ well_formed t
      ∧ names t = ["opaque_id"; "cost"; "metric_name"; "query_id"]
      ∧ num_rows t = length Sample.costs
      ∧ (∀ i opaque_id cost query_id,
           Sample.costs !! i = Some (opaque_id, cost, query_id) →
           table_cell t "opaque_id" i = Some (CStr opaque_id)
           ∧ table_cell t "cost" i = Some (CDouble cost)
           ∧ table_cell t "metric_name" i = Some (CStr "snowflake_credits")
           ∧ table_cell t "query_id" i = Some (CStr query_id))
      ∧ (∀ i name, Sample.costs !! i = None → table_cell t name i = None).
Proof.
  split; [reflexivity|]. split; [reflexivity|].
  apply upload_writes_one_row_per_record; reflexivity.
Defined.

(** The table of the empty list: four columns of the null type, no row. *)
Example empty_cost_table metric_name :
  cost_table metric_name []
  = inr {| names := ["opaque_id"; "cost"; "metric_name"; "query_id"];
           columns := [NullArray 0; NullArray 0; NullArray 0; NullArray 0] |}.
Proof. reflexivity. Qed.

(** *** The paths of the uploader on an agent instance *)

Section AgentPaths.

Context (env : Env) (context : ExecutionContext) (metric_name : string)
  (cost_information : list CostRecord) (w : World) (a : AgentAttributes).
Hypothesis pyarrow_installed : installed env "pyarrow" = true.
Hypothesis parquet_installed : installed env "pyarrow.parquet" = true.
Hypothesis agent_instance : variant (instance context) = CloudAgentInstance a.

Local Abbreviation upload :=
  (upload_cost_information env context metric_name cost_information).
Local Abbreviation written :=
  (ParquetWritten (cost_pq_file env) (built_table metric_name cost_information)).

Ltac start_upload :=
  unfold upload_url_request, cost_pq_file in *;
  run_upload;
  rewrite pyarrow_installed, parquet_installed, cost_table_inr, agent_instance;
  tidy_trace.

(** The request for a destination raises: the error goes to the caller. *)
Lemma upload_request_raises e :
  session_post (requests_managed_retries_session a) (upload_url_request a) = inl e →
  upload w
  = (inl e,
     {| runs := runs w;
        trace := trace w ++ [TempDirCreated (temp_dir env); written;
                             HttpPost (upload_url_request a);
                             TempDirRemoved (temp_dir env)] |}).
Proof. intros H. start_upload. rewrite H. by tidy_trace. Qed.

(** The request is answered with a status outside 2xx. *)
Lemma upload_http_error r :
  session_post (requests_managed_retries_session a) (upload_url_request a) = inr r →
  is_success (status_code r) = false →
  upload w
  = (inl (Exn DagsterCloudHTTPError (HttpDetail (status_code r) (text r)) None),
     {| runs := runs w;
        trace := trace w ++ [TempDirCreated (temp_dir env); written;
                             HttpPost (upload_url_request a);
                             TempDirRemoved (temp_dir env)] |}).
Proof. intros H1 H2. start_upload. rewrite H1. tidy_trace. rewrite H2. by tidy_trace. Qed.

(** The answer is a JSON object without [url] or without [fields]. *)
Lemma upload_malformed r members :
  session_post (requests_managed_retries_session a) (upload_url_request a) = inr r →
  is_success (status_code r) = true →
  json_body r = inr (JObj members) →
  members !! "url" = None ∨ members !! "fields" = None →
  upload w
  = (inl (Exn AssertionError (Payload (JObj members)) None),
     {| runs := runs w;
        trace := trace w ++ [TempDirCreated (temp_dir env); written;
                             HttpPost (upload_url_request a);
                             TempDirRemoved (temp_dir env)] |}).
Proof.
  intros H1 H2 H3 H4. start_upload. rewrite H1. tidy_trace.
  rewrite H2. tidy_trace. rewrite H3. tidy_trace.
  destruct (members !! "url") as [u|] eqn:Hu; tidy_trace; [|done].
  destruct H4 as [|H4]; [done|]. rewrite H4. by tidy_trace.
Qed.

(** The answer names a destination: the file is posted to it, and the
    outcome of that call is all that matters: an exception goes to the
    caller, a response is dropped. *)
Lemma upload_posts_file r members dest form :
  session_post (requests_managed_retries_session a) (upload_url_request a) = inr r →
  is_success (status_code r) = true →
  json_body r = inr (JObj members) →
  members !! "url" = Some dest →
  members !! "fields" = Some form →
  upload w
  = (match session_post (requests_managed_retries_session a)
             (PostForm dest form (cost_pq_file env)) with
     | inl e => inl e
     | inr _ => inr tt
     end,
     {| runs := runs w;
        trace := trace w ++ [TempDirCreated (temp_dir env); written;
                             HttpPost (upload_url_request a);
                             FileOpened (cost_pq_file env);
                             HttpPost (PostForm dest form (cost_pq_file env));
                             FileClosed (cost_pq_file env);
                             TempDirRemoved (temp_dir env)] |}).
Proof.
  intros H1 H2 H3 H4 H5. start_upload. rewrite H1. tidy_trace.
  rewrite H2. tidy_trace. rewrite H3. tidy_trace.
  rewrite H4, H5. tidy_trace.
  destruct (session_post _ (PostForm _ _ _)); by tidy_trace.
Qed.

End AgentPaths.

(** C5. When the request for the upload destination is answered with a
    non-success status, the uploader fails with the HTTP error, which
    carries the status and the body of that response, and the request is
    the only network call: the file is never posted. *)
Theorem upload_http_error_stops_before_file_post
    env context metric_name (cost_information : list CostRecord) w a r :
  installed env "pyarrow" = true →
  installed env "pyarrow.parquet" = true →
  variant (instance context) = CloudAgentInstance a →
  session_post (requests_managed_retries_session a) (upload_url_request a) = inr r →
  is_success (status_code r) = false →
  let upload := upload_cost_information env context metric_name cost_information in
  result upload w
  = inl (Exn DagsterCloudHTTPError (HttpDetail (status_code r) (text r)) None)
  ∧ network_calls (calls upload w) = [upload_url_request a]
  ∧ count_events is_file_post (calls upload w) = 0%nat.
Proof.
  intros H1 H2 H3 H4 H5 upload.
  destruct (observe upload w _ _ _
    (upload_http_error env context metric_name cost_information w a H1 H2 H3 r H4 H5))
    as (-> & -> & _).
  done.
Qed.

Lemma upload_http_error_stops_before_file_post_witness :
  let r := Sample.response 403 (inr Sample.destination) in
  let s := Sample.session (inr r) (inr r) in
  let upload :=
    upload_cost_information Sample.all_installed {| instance := Sample.agent s |}
      "snowflake_credits" Sample.costs in
  is_success (status_code r) = false
  ∧ result upload Sample.empty_world
    = inl (Exn DagsterCloudHTTPError (HttpDetail (status_code r) (text r)) None)
  ∧ network_calls (calls upload Sample.empty_world)
    = [upload_url_request (Sample.attrs s)]
  ∧ count_events is_file_post (calls upload Sample.empty_world) = 0%nat.
Proof.
  intros r s upload. split; [reflexivity|].
  apply (upload_http_error_stops_before_file_post
           Sample.all_installed {| instance := Sample.agent s |}
           "snowflake_credits" Sample.costs Sample.empty_world (Sample.attrs s) r);
    reflexivity.
Defined.

(** C7. When the answer to the request has a success status and its body
    parses to an object that lacks the [url] key or the [fields] key, the
    uploader fails with the assertion error that carries the parsed body,
    which is not an HTTP error, and the file is never posted. *)
Theorem upload_malformed_response_stops_before_file_post
    env context metric_name (cost_information : list CostRecord) w a r members :
  installed env "pyarrow" = true →
  installed env "pyarrow.parquet" = true →
  variant (instance context) = CloudAgentInstance a →
  session_post (requests_managed_retries_session a) (upload_url_request a) = inr r →
  is_success (status_code r) = true →
  json_body r = inr (JObj members) →
  members !! "url" = None ∨ members !! "fields" = None →
  let upload := upload_cost_information env context metric_name cost_information in
  ∃ e,
    result upload w = inl e
    ∧ e = Exn AssertionError (Payload (JObj members)) None
    ∧ isinstance e DagsterCloudHTTPError = false
    ∧ network_calls (calls upload w) = [upload_url_request a]
    ∧ count_events is_file_post (calls upload w) = 0%nat.
Proof.
  intros H1 H2 H3 H4 H5 H6 H7 upload.
  destruct (observe upload w _ _ _
    (upload_malformed env context metric_name cost_information w a H1 H2 H3
       r members H4 H5 H6 H7))
    as (-> & -> & _).
  by eexists.
Qed.

Lemma upload_malformed_response_stops_before_file_post_witness :
  let members : gmap string json := {[ "url" := JStr "https://bucket.example/upload" ]} in
  let r := Sample.response 200 (inr (JObj members)) in
  let s := Sample.session (inr r) (inr r) in
  let upload :=
    upload_cost_information Sample.all_installed {| instance := Sample.agent s |}
      "snowflake_credits" Sample.costs in
  (members !! "url" = None ∨ members !! "fields" = None)
  ∧ ∃ e,
      result upload Sample.empty_world = inl e
      ∧ e = Exn AssertionError (Payload (JObj members)) None
      ∧ isinstance e DagsterCloudHTTPError = false
      ∧ network_calls (calls upload Sample.empty_world)
        = [upload_url_request (Sample.attrs s)]
      ∧ count_events is_file_post (calls upload Sample.empty_world) = 0%nat.
Proof.
  intros members r s upload.
  assert (members !! "url" = None ∨ members !! "fields" = None) as H
    by (right; reflexivity).
  split; [exact H|].
  apply (upload_malformed_response_stops_before_file_post
           Sample.all_installed {| instance := Sample.agent s |}
           "snowflake_credits" Sample.costs Sample.empty_world (Sample.attrs s)
           r members);
    first [exact H | reflexivity].
Defined.

(** Whatever the body parses to, the file is posted only to a destination
    taken from an object that has both keys: on any other document the
    uploader fails with an assertion error or a type error after the
    request, which stays its only network call. *)
Lemma upload_without_destination_never_posts
    env context metric_name (cost_information : list CostRecord) w a r doc :
  installed env "pyarrow" = true →
  installed env "pyarrow.parquet" = true →
  variant (instance context) = CloudAgentInstance a →
  session_post (requests_managed_retries_session a) (upload_url_request a) = inr r →
  is_success (status_code r) = true →
  json_body r = inr doc →
  (∀ members, doc = JObj members →
              members !! "url" = None ∨ members !! "fields" = None) →
  let upload := upload_cost_information env context metric_name cost_information in
  ∃ e,
    result upload w = inl e
    ∧ (exn_class e = AssertionError ∨ exn_class e = TypeError)
    ∧ network_calls (calls upload w) = [upload_url_request a].
Proof.
  intros H1 H2 H3 H4 H5 H6 H7 upload. subst upload.
  unfold result, calls, upload_url_request in *.
  run_upload. rewrite H1, H2, cost_table_inr, H3. tidy_trace.
  rewrite H4. tidy_trace. rewrite H5. tidy_trace. rewrite H6. tidy_trace.
  destruct doc as [| | | |items|members]; tidy_trace;
    rewrite ?drop_app_length; try (by eexists; split_and!; eauto).
  - destruct (str_contains "url" s); [destruct (str_contains "fields" s)|];
      tidy_trace; rewrite ?drop_app_length; by eexists; split_and!; eauto.
  - destruct (existsb _ items); [destruct (existsb _ items)|];
      tidy_trace; rewrite ?drop_app_length; by eexists; split_and!; eauto.
  - destruct (H7 members eq_refl) as [Hu|Hf].
    + rewrite Hu. tidy_trace. rewrite ?drop_app_length.
      by eexists; split_and!; eauto.
    + destruct (members !! "url"); rewrite ?Hf; tidy_trace;
        rewrite ?drop_app_length; by eexists; split_and!; eauto.
Qed.

(** C9. When the file post to the signed destination is answered with a
    non-success status, the uploader still returns without an error: the
    response of that call is dropped. *)
Theorem upload_ignores_file_post_status
    env context metric_name (cost_information : list CostRecord) w a
    r members dest form r2 :
  installed env "pyarrow" = true →
  installed env "pyarrow.parquet" = true →
  variant (instance context) = CloudAgentInstance a →
  session_post (requests_managed_retries_session a) (upload_url_request a) = inr r →
  is_success (status_code r) = true →
  json_body r = inr (JObj members) →
  members !! "url" = Some dest →
  members !! "fields" = Some form →
  session_post (requests_managed_retries_session a)
    (PostForm dest form (cost_pq_file env)) = inr r2 →
  is_success (status_code r2) = false →
  let upload := upload_cost_information env context metric_name cost_information in
  result upload w = inr tt
  ∧ network_calls (calls upload w)
    = [upload_url_request a; PostForm dest form (cost_pq_file env)].
Proof.
  intros H1 H2 H3 H4 H5 H6 H7 H8 H9 _ upload.
  destruct (observe upload w _ _ _
    (upload_posts_file env context metric_name cost_information w a H1 H2 H3
       r members dest form H4 H5 H6 H7 H8))
    as (-> & -> & _).
  by rewrite H9.
Qed.

Lemma upload_ignores_file_post_status_witness :
  let r := Sample.response 200 (inr Sample.destination) in
  let r2 := Sample.response 500 (inl (Exn ValueError (Msg "not JSON") None)) in
  let s := Sample.session (inr r) (inr r2) in
  let upload :=
    upload_cost_information Sample.all_installed {| instance := Sample.agent s |}
      "snowflake_credits" Sample.costs in
  is_success (status_code r2) = false
  ∧ result upload Sample.empty_world = inr tt
  ∧ network_calls (calls upload Sample.empty_world)
    = [upload_url_request (Sample.attrs s);
       PostForm Sample.destination_url Sample.destination_fields
         (cost_pq_file Sample.all_installed)].
Proof.
  intros r r2 s upload. split; [reflexivity|].
  apply (upload_ignores_file_post_status
           Sample.all_installed {| instance := Sample.agent s |}
           "snowflake_credits" Sample.costs Sample.empty_world (Sample.attrs s)
           r Sample.destination_members Sample.destination_url
           Sample.destination_fields r2);
    reflexivity.
Defined.

(** *** The other paths of the uploader *)

(** A module of [pyarrow] is missing: nothing is called. *)
Lemma upload_missing_dependency env context metric_name
    (cost_information : list CostRecord) w :
  installed env "pyarrow" = false ∨ installed env "pyarrow.parquet" = false →
  ∃ e,
    upload_cost_information env context metric_name cost_information w = (inl e, w)
    ∧ exn_class e = ModuleNotFoundError.
Proof.
  intros H. run_upload.
  destruct (installed env "pyarrow"); [|by eexists].
  destruct H as [H | H]; [done|]. rewrite H. by eexists.
Qed.


(** C6. The outer entry point turns an import error of the inner upload
    into an [Exception] whose message tells to install the insights extra
    and whose cause is the import error; any other error of the inner
    upload reaches the caller as it is, and so does its normal return.  The
    outer call makes the calls of the inner one and no other.  In
    particular, when [pyarrow] is not installed, the caller gets the
    message about the extra and nothing has been called. *)
Theorem put_cost_information_translates_import_error
    env context metric_name (cost_information : list CostRecord) start end_ w :
  let inner := upload_cost_information env context metric_name cost_information in
  let outer := put_cost_information env context metric_name cost_information
                 start end_ in
  (∀ e, result inner w = inl e → isinstance e ImportError = true →
        result outer w = inl (Exn Exception (Msg INSTALL_EXTRA) (Some e)))
  ∧ (∀ e, result inner w = inl e → isinstance e ImportError = false →
          result outer w = inl e)
  ∧ (∀ v, result inner w = inr v → result outer w = inr v)
  ∧ calls outer w = calls inner w
  ∧ storage outer w = storage inner w
  ∧ (installed env "pyarrow" = false →
     ∃ e, exn_class e = ModuleNotFoundError
          ∧ result outer w = inl (Exn Exception (Msg INSTALL_EXTRA) (Some e))
          ∧ calls outer w = [])
  ∧ str_contains "Install dagster-cloud[insights]" INSTALL_EXTRA = true.
Proof.
  intros inner outer.
  assert (outer w
          = match inner w with
            | (inl e, w') =>
                if isinstance e ImportError
                then (inl (Exn Exception (Msg INSTALL_EXTRA) (Some e)), w')
                else (inl e, w')
            | (inr v, w') => (inr v, w')
            end) as Houter by done.
  unfold result, calls, storage. rewrite Houter.
  split_and!.
  - intros e. destruct (inner w) as [[e'|v] w']; simpl; [|done].
    intros [= ->] ->. done.
  - intros e. destruct (inner w) as [[e'|v] w']; simpl; [|done].
    intros [= ->] ->. done.
  - intros v. destruct (inner w) as [[e'|v'] w']; simpl; [done|].
    by intros [= ->].
  - destruct (inner w) as [[e|v] w']; [destruct (isinstance e ImportError)|]; done.
  - destruct (inner w) as [[e|v] w']; [destruct (isinstance e ImportError)|]; done.
  - intros Hmissing.
    destruct (upload_missing_dependency env context metric_name cost_information w
                (or_introl Hmissing)) as (e & He & Hcls).
    fold inner in He. rewrite He.
    exists e. unfold isinstance. rewrite Hcls. simpl.
    by rewrite drop_all.
  - reflexivity.
Qed.

Lemma put_cost_information_translates_import_error_witness :
  let missing := Exn ModuleNotFoundError (Msg "No module named 'pyarrow'") None in
  let not_agent := Exn RuntimeError (Msg NOT_IN_CLOUD) None in
  let context := {| instance := Sample.plain |} in
  (isinstance missing ImportError = true
   ∧ result (put_cost_information Sample.nothing_installed context
               "snowflake_credits" Sample.costs 0%float 1%float) Sample.empty_world
     = inl (Exn Exception (Msg INSTALL_EXTRA) (Some missing)))
  ∧ (isinstance not_agent ImportError = false
     ∧ result (put_cost_information Sample.all_installed context
                 "snowflake_credits" Sample.costs 0%float 1%float) Sample.empty_world
       = inl not_agent).
Proof.
  intros missing not_agent context. split.
  - split; [reflexivity|].
    destruct (put_cost_information_translates_import_error
                Sample.nothing_installed context "snowflake_credits" Sample.costs
                0%float 1%float Sample.empty_world) as (Himport & _).
    apply Himport; reflexivity.
  - split; [reflexivity|].
    destruct (put_cost_information_translates_import_error
                Sample.all_installed context "snowflake_credits" Sample.costs
                0%float 1%float Sample.empty_world) as (_ & Hother & _).
    apply Hother; reflexivity.
Defined.



(** ** The process run launcher *)

Ltac run_launcher :=
  cbv [launch_run can_terminate terminate _get_pid get_run_by_id add_run_tags
       report_run_canceling check_not_none launch_process check_on_process
       kill_process get_command_args raise_msg raise ret bind emit].

Section Launcher.

Context (os : OS) (self : CloudProcessRunLauncher).

(** *** [launch_run] *)


Lemma launch_run_with_origin context w origin :
  pipeline_code_origin context = Some origin →
  let run := pipeline_run context in
  let args := {| pipeline_origin := origin;
                 pipeline_run_id := run_id run;
                 instance_ref := get_ref (_instance self) |} in
  let pid := spawn os args in
  launch_run os self context w
  = (inr tt,
     {| runs := alter (with_tags {[ PID_TAG := py_str pid ]}) (run_id run) (runs w);
        trace := trace w ++ [ProcessLaunched args pid;
                             RunTagsAdded (run_id run) {[ PID_TAG := py_str pid ]}] |}).
Proof.
  intros H run args pid. run_launcher. rewrite H. simpl.
  by rewrite <-app_assoc.
Qed.

(** *** [can_terminate] and [terminate] on the cases of [_get_pid] *)

Lemma can_terminate_unknown_run id w :
  runs w !! id = None → can_terminate os self id w = (inr false, w).
Proof. intros H. run_launcher. by rewrite H. Qed.

Lemma terminate_unknown_run id w :
  runs w !! id = None → terminate os self id w = (inr false, w).
Proof. intros H. run_launcher. by rewrite H. Qed.

Lemma can_terminate_finished id w run :
  runs w !! id = Some run → is_finished run = true →
  can_terminate os self id w = (inr false, w).
Proof. intros H1 H2. run_launcher. by rewrite H1, H2. Qed.

Lemma terminate_finished id w run :
  runs w !! id = Some run → is_finished run = true →
  terminate os self id w = (inr false, w).
Proof. intros H1 H2. run_launcher. by rewrite H1, H2. Qed.

Lemma can_terminate_no_tag id w run :
  runs w !! id = Some run → is_finished run = false →
  tags run !! PID_TAG = None →
  can_terminate os self id w = (inr false, w).
Proof. intros H1 H2 H3. run_launcher. by rewrite H1, H2, H3. Qed.

Lemma terminate_no_tag id w run :
  runs w !! id = Some run → is_finished run = false →
  tags run !! PID_TAG = None →
  terminate os self id w = (inr false, w).
Proof. intros H1 H2 H3. run_launcher. by rewrite H1, H2, H3. Qed.

Lemma can_terminate_pid_zero id w run v :
  runs w !! id = Some run → is_finished run = false →
  tags run !! PID_TAG = Some v → py_int v = Some 0 →
  can_terminate os self id w = (inr false, w).
Proof. intros H1 H2 H3 H4. run_launcher. by rewrite H1, H2, H3, H4. Qed.

Lemma terminate_pid_zero id w run v :
  runs w !! id = Some run → is_finished run = false →
  tags run !! PID_TAG = Some v → py_int v = Some 0 →
  terminate os self id w = (inr false, w).
Proof. intros H1 H2 H3 H4. run_launcher. by rewrite H1, H2, H3, H4. Qed.

Lemma can_terminate_pid id w run v pid :
  runs w !! id = Some run → is_finished run = false →
  tags run !! PID_TAG = Some v → py_int v = Some pid → pid ≠ 0 →
  can_terminate os self id w
  = (inr (TaskStatus_eqb (liveness os pid) RUNNING),
     {| runs := runs w; trace := trace w ++ [ProcessChecked pid] |}).
Proof.
  intros H1 H2 H3 H4 H5. run_launcher. rewrite H1, H2, H3, H4. simpl.
  by destruct (Z.eqb_spec pid 0).
Qed.

Lemma terminate_pid id w run v pid :
  runs w !! id = Some run → is_finished run = false →
  tags run !! PID_TAG = Some v → py_int v = Some pid → pid ≠ 0 →
  terminate os self id w
  = (inr true,
     {| runs := runs w;
        trace := trace w ++ [RunCancelingReported run; ProcessKilled pid] |}).
Proof.
  intros H1 H2 H3 H4 H5. run_launcher. rewrite H1, H2, H3, H4. simpl.
  destruct (Z.eqb_spec pid 0); [done|]. simpl. by rewrite <-app_assoc.
Qed.

Lemma can_terminate_bad_tag id w run v :
  runs w !! id = Some run → is_finished run = false →
  tags run !! PID_TAG = Some v → py_int v = None →
  can_terminate os self id w
  = (inl (Exn ValueError
            (Msg ("invalid literal for int() with base 10: '" +:+ v +:+ "'")) None), w).
Proof. intros H1 H2 H3 H4. run_launcher. by rewrite H1, H2, H3, H4. Qed.

Lemma terminate_bad_tag id w run v :
  runs w !! id = Some run → is_finished run = false →
  tags run !! PID_TAG = Some v → py_int v = None →
  terminate os self id w
  = (inl (Exn ValueError
            (Msg ("invalid literal for int() with base 10: '" +:+ v +:+ "'")) None), w).
Proof. intros H1 H2 H3 H4. run_launcher. by rewrite H1, H2, H3, H4. Qed.

End Launcher.

Lemma observe_unchanged {A} (m : M A) (w : World) res :
  m w = (res, w) → result m w = res ∧ calls m w = [] ∧ storage m w = runs w.
Proof.
  intros H. unfold result, calls, storage. rewrite H. simpl.
  by rewrite drop_all.
Qed.




(** C3 as stated fails in two places.  A tag that [int] does not accept
    makes [can_terminate] raise, so it returns neither truth value; and
    when the tag is ["0"], [can_terminate] returns false without asking for
    the liveness of the process, also where pid 0 is reported RUNNING. *)
Lemma can_terminate_not_decided_by_liveness_alone :
  let check := can_terminate Sample.os Sample.launcher "run-1" in
  let w v := Sample.world_with (Sample.run_with_tag v) in
  (∀ b, result check (w "abc") ≠ inr b)
  ∧ liveness Sample.os 0 = RUNNING
  ∧ result check (w "0") = inr false
  ∧ calls check (w "0") = [].
Proof.
  intros check w. split_and!; try reflexivity.
  intros b. assert (∃ e, result check (w "abc") = inl e) as [e ->] by by eexists.
  discriminate.
Qed.

(** C3, as the code has it.  [can_terminate] returns false, and calls
    nothing, when the run does not exist, when it is finished, when it has
    no [process/pid] tag, and when the tag converts to the integer 0.  When
    the tag converts to an integer other than 0, it asks for the liveness
    of that pid once and returns true if and only if the answer is
    RUNNING. *)
Theorem can_terminate_by_cases os self id w :
  let check := can_terminate os self id in
  (runs w !! id = None → check w = (inr false, w))
  ∧ (∀ run, runs w !! id = Some run →
       (is_finished run = true → check w = (inr false, w))
       ∧ (is_finished run = false → tags run !! PID_TAG = None →
          check w = (inr false, w))
       ∧ (∀ v, is_finished run = false → tags run !! PID_TAG = Some v →
               py_int v = Some 0 → check w = (inr false, w))
       ∧ (∀ v pid, is_finished run = false → tags run !! PID_TAG = Some v →
                   py_int v = Some pid → pid ≠ 0 →
                   (∃ b, result check w = inr b
                         ∧ (b = true ↔ liveness os pid = RUNNING))
                   ∧ calls check w = [ProcessChecked pid]
                   ∧ storage check w = runs w)).
Proof.
  intros check. split; [apply can_terminate_unknown_run|].
  intros run Hrun. split_and!.
  - by apply can_terminate_finished.
  - by apply can_terminate_no_tag.
  - intros v. by apply can_terminate_pid_zero.
  - intros v pid Hfin Htag Hint Hpid.
    destruct (observe check w _ _ _
      (can_terminate_pid os self id w run v pid Hrun Hfin Htag Hint Hpid))
      as (-> & -> & ->).
    split; [|done]. eexists. split; [done|].
    by destruct (liveness os pid).
Qed.

Lemma can_terminate_by_cases_witness :
  let check := can_terminate Sample.os Sample.launcher "run-1" in
  let w := Sample.world_with (Sample.run_with_tag "4711") in
  py_int "4711" = Some 4711
  ∧ 4711 ≠ 0
  ∧ (∃ b, result check w = inr b ∧ (b = true ↔ liveness Sample.os 4711 = RUNNING))
  ∧ calls check w = [ProcessChecked 4711].
Proof.
  intros check w.
  assert (4711 ≠ 0) as Hpid by discriminate.
  split; [reflexivity|]. split; [exact Hpid|].
  destruct (can_terminate_by_cases Sample.os Sample.launcher "run-1" w)
    as (_ & Hrun).
  destruct (Hrun (Sample.run_with_tag "4711") eq_refl) as (_ & _ & _ & Hlive).
  destruct (Hlive "4711" 4711 eq_refl eq_refl eq_refl Hpid) as (Hres & Hcalls & _).
  split; [exact Hres | exact Hcalls].
Defined.

(** C4 as stated fails on the tag ["0"]: also where pid 0 is reported
    RUNNING, [terminate] returns false and has neither notified the
    cancellation nor sent a signal. *)
Lemma terminate_skips_pid_zero :
  let stop := terminate Sample.os Sample.launcher "run-1" in
  let w := Sample.world_with (Sample.run_with_tag "0") in
  runs w !! "run-1" = Some (Sample.run_with_tag "0")
  ∧ is_finished (Sample.run_with_tag "0") = false
  ∧ (py_int <$> tags (Sample.run_with_tag "0") !! PID_TAG) = Some (Some 0)
  ∧ liveness Sample.os 0 = RUNNING
  ∧ result stop w = inr false
  ∧ calls stop w = [].
Proof. intros stop w. split_and!; reflexivity. Qed.

(** C4, as the code has it.  For a run that exists, is not finished and
    carries a [process/pid] tag that converts to a pid other than 0 which
    is RUNNING, [terminate] notifies the cancellation of that run once,
    then sends the signal to that pid, and returns true; these are its only
    calls.  It returns false, and calls nothing, when the run does not
    exist, when it is finished, when it has no tag, and when the tag
    converts to 0. *)
Theorem terminate_notifies_then_signals os self id w :
  let stop := terminate os self id in
  (∀ run v pid,
     runs w !! id = Some run → is_finished run = false →
     tags run !! PID_TAG = Some v → py_int v = Some pid → pid ≠ 0 →
     liveness os pid = RUNNING →
     result stop w = inr true
     ∧ calls stop w = [RunCancelingReported run; ProcessKilled pid]
     ∧ count_events is_cancel_notification (calls stop w) = 1%nat
     ∧ count_events is_process_signal (calls stop w) = 1%nat
     ∧ storage stop w = runs w)
  ∧ (runs w !! id = None → stop w = (inr false, w))
  ∧ (∀ run, runs w !! id = Some run → is_finished run = true →
            stop w = (inr false, w))
  ∧ (∀ run, runs w !! id = Some run → is_finished run = false →
            tags run !! PID_TAG = None → stop w = (inr false, w))
  ∧ (∀ run v, runs w !! id = Some run → is_finished run = false →
              tags run !! PID_TAG = Some v → py_int v = Some 0 →
              stop w = (inr false, w)).
Proof.
  intros stop. split_and!.
  - intros run v pid Hrun Hfin Htag Hint Hpid _.
    destruct (observe stop w _ _ _
      (terminate_pid os self id w run v pid Hrun Hfin Htag Hint Hpid))
      as (-> & -> & ->).
    done.
  - apply terminate_unknown_run.
  - intros run. apply terminate_finished.
  - intros run. apply terminate_no_tag.
  - intros run v. apply terminate_pid_zero.
Qed.

Lemma terminate_notifies_then_signals_witness :
  let stop := terminate Sample.os Sample.launcher "run-1" in
  let run := Sample.run_with_tag "4711" in
  let w := Sample.world_with run in
  py_int "4711" = Some 4711
  ∧ 4711 ≠ 0
  ∧ liveness Sample.os 4711 = RUNNING
  ∧ result stop w = inr true
  ∧ calls stop w = [RunCancelingReported run; ProcessKilled 4711].
Proof.
  intros stop run w.
  assert (4711 ≠ 0) as Hpid by discriminate.
  split; [reflexivity|]. split; [exact Hpid|]. split; [reflexivity|].
  destruct (terminate_notifies_then_signals Sample.os Sample.launcher "run-1" w)
    as (Hlive & _).
  destruct (Hlive run "4711" 4711 eq_refl eq_refl eq_refl eq_refl Hpid eq_refl)
    as (Hres & Hcalls & _).
  split; [exact Hres | exact Hcalls].
Defined.

(** C10. For a run that exists, is not finished and carries a
    [process/pid] tag whose value [int] does not accept, [can_terminate]
    and [terminate] both raise the [ValueError] of the conversion instead
    of returning false, and neither has called anything. *)
Theorem unparsable_pid_tag_raises os self id w run v :
  runs w !! id = Some run →
  is_finished run = false →
  tags run !! PID_TAG = Some v →
  py_int v = None →
  ∃ e,
    exn_class e = ValueError
    ∧ can_terminate os self id w = (inl e, w)
    ∧ terminate os self id w = (inl e, w)
    ∧ (∀ b, result (can_terminate os self id) w ≠ inr b)
    ∧ (∀ b, result (terminate os self id) w ≠ inr b).
Proof.
  intros Hrun Hfin Htag Hint.
  pose proof (can_terminate_bad_tag os self id w run v Hrun Hfin Htag Hint) as Hc.
  pose proof (terminate_bad_tag os self id w run v Hrun Hfin Htag Hint) as Ht.
  eexists. split_and!; [|exact Hc|exact Ht|..]; [done|..];
    intros b; unfold result; by rewrite ?Hc, ?Ht.
Qed.

Lemma unparsable_pid_tag_raises_witness :
  let run := Sample.run_with_tag "12.5" in
  let w := Sample.world_with run in
  py_int "12.5" = None
  ∧ ∃ e,
      exn_class e = ValueError
      ∧ can_terminate Sample.os Sample.launcher "run-1" w = (inl e, w)
      ∧ terminate Sample.os Sample.launcher "run-1" w = (inl e, w)
      ∧ (∀ b, result (can_terminate Sample.os Sample.launcher "run-1") w ≠ inr b)
      ∧ (∀ b, result (terminate Sample.os Sample.launcher "run-1") w ≠ inr b).
Proof.
  intros run w. split; [reflexivity|].
  apply (unparsable_pid_tag_raises Sample.os Sample.launcher "run-1" w run "12.5");
    reflexivity.
Defined.

(** *** From launch to termination

    The tag that [launch_run] writes is the one that [_get_pid] reads
    back: on a stored run that is not finished, the pid that
    [can_terminate] checks and that [terminate] signals is the pid of the
    spawned process. *)

Section LaunchThenTerminate.

Context (os : OS) (self : CloudProcessRunLauncher) (context : LaunchRunContext)
  (w : World) (origin : string) (stored : DagsterRun).
Hypothesis has_origin : pipeline_code_origin context = Some origin.
Hypothesis is_stored : runs w !! run_id (pipeline_run context) = Some stored.
Hypothesis not_finished : is_finished stored = false.

Local Abbreviation id := (run_id (pipeline_run context)).
Local Abbreviation pid :=
  (spawn os {| pipeline_origin := origin;
               pipeline_run_id := id;
               instance_ref := get_ref (_instance self) |}).
Local Abbreviation launched := ((launch_run os self context w).2).
Local Abbreviation tagged := (with_tags {[ PID_TAG := py_str pid ]} stored).

Hypothesis pid_not_zero : pid ≠ 0.

Lemma launched_run_is_tagged :
  runs launched !! id = Some tagged
  ∧ is_finished tagged = false
  ∧ tags tagged !! PID_TAG = Some (py_str pid).
Proof.
  rewrite (launch_run_with_origin os self context w origin has_origin).
  cbn [snd runs]. rewrite lookup_alter_eq, is_stored.
  split_and!; [done..|].
  simpl. apply lookup_union_Some_l, lookup_singleton_eq.
Qed.

Lemma launch_then_can_terminate :
  result (can_terminate os self id) launched
  = inr (TaskStatus_eqb (liveness os pid) RUNNING)
  ∧ calls (can_terminate os self id) launched = [ProcessChecked pid].
Proof.
  destruct launched_run_is_tagged as (Hrun & Hfin & Htag).
  destruct (observe (can_terminate os self id) launched _ _ _
    (can_terminate_pid os self id launched tagged (py_str pid) pid
       Hrun Hfin Htag (py_int_py_str pid) pid_not_zero))
    as (-> & -> & _).
  done.
Qed.

Lemma launch_then_terminate :
  result (terminate os self id) launched = inr true
  ∧ calls (terminate os self id) launched
    = [RunCancelingReported tagged; ProcessKilled pid].
Proof.
  destruct launched_run_is_tagged as (Hrun & Hfin & Htag).
  destruct (observe (terminate os self id) launched _ _ _
    (terminate_pid os self id launched tagged (py_str pid) pid
       Hrun Hfin Htag (py_int_py_str pid) pid_not_zero))
    as (-> & -> & _).
  done.
Qed.

End LaunchThenTerminate.

(** * Further properties of the code *)

(** ** [process.py]: all paths of [can_terminate] and [terminate] *)

(** What [_get_pid] makes of the stored run, as [can_terminate] and
    [terminate] see it. *)
Lemma launcher_cases os self id w :
  (can_terminate os self id w = (inr false, w)
   ∧ terminate os self id w = (inr false, w))
  ∨ (∃ e, exn_class e = ValueError
          ∧ can_terminate os self id w = (inl e, w)
          ∧ terminate os self id w = (inl e, w))
  ∨ (∃ run v pid,
       runs w !! id = Some run ∧ is_finished run = false
       ∧ tags run !! PID_TAG = Some v ∧ py_int v = Some pid ∧ pid ≠ 0
       ∧ can_terminate os self id w
         = (inr (TaskStatus_eqb (liveness os pid) RUNNING),
            {| runs := runs w; trace := trace w ++ [ProcessChecked pid] |})
       ∧ terminate os self id w
         = (inr true,
            {| runs := runs w;
               trace := trace w ++ [RunCancelingReported run; ProcessKilled pid] |})).
Proof.
  destruct (runs w !! id) as [run|] eqn:Hrun.
  2: { left. split; [by apply can_terminate_unknown_run
                    |by apply terminate_unknown_run]. }
  destruct (is_finished run) eqn:Hfin.
  { left. split; [by eapply can_terminate_finished|by eapply terminate_finished]. }
  destruct (tags run !! PID_TAG) as [v|] eqn:Htag.
  2: { left. split; [by eapply can_terminate_no_tag|by eapply terminate_no_tag]. }
  destruct (py_int v) as [pid|] eqn:Hint.
  2: { right. left. eexists. split_and!;
         [|by eapply can_terminate_bad_tag|by eapply terminate_bad_tag]. done. }
  destruct (decide (pid = 0)) as [->|Hpid].
  { left. split; [by eapply can_terminate_pid_zero|by eapply terminate_pid_zero]. }
  right. right. exists run, v, pid. split_and!; try done.
  - by eapply can_terminate_pid.
  - by eapply terminate_pid.
Qed.

(** X1. [can_terminate] only looks: on every path it leaves the run storage
    as it is and calls nothing but, at most once, the liveness query, for a
    pid other than 0; and it returns true only after that query was
    answered RUNNING. *)
Theorem can_terminate_only_queries_liveness os self id w :
  storage (can_terminate os self id) w = runs w
  ∧ (calls (can_terminate os self id) w = []
     ∨ ∃ pid, pid ≠ 0 ∧ calls (can_terminate os self id) w = [ProcessChecked pid])
  ∧ (result (can_terminate os self id) w = inr true →
     ∃ pid, calls (can_terminate os self id) w = [ProcessChecked pid]
            ∧ liveness os pid = RUNNING).
Proof.
  destruct (launcher_cases os self id w)
    as [[Hc _]|[(e & _ & Hc & _)|(run & v & pid & _ & _ & _ & _ & Hpid & Hc & _)]].
  - destruct (observe_unchanged _ _ _ Hc) as (Hres & -> & ->).
    split_and!; [done|by left|]. rewrite Hres. discriminate.
  - destruct (observe_unchanged _ _ _ Hc) as (Hres & -> & ->).
    split_and!; [done|by left|]. rewrite Hres. discriminate.
  - destruct (observe _ _ _ _ _ Hc) as (Hres & -> & ->).
    split_and!; [done|right; by exists pid|].
    rewrite Hres. intros [= Hlive]. exists pid. split; [done|].
    by destruct (liveness os pid).
Qed.


(** X3. [terminate] does not ask whether the process is alive.  For a run
    whose tag names a pid that is no longer RUNNING, [can_terminate] returns
    false, yet [terminate] still notifies the cancellation, signals that
    pid and returns true. *)
Theorem terminate_signals_a_stale_pid os self id w run v pid :
  runs w !! id = Some run →
  is_finished run = false →
  tags run !! PID_TAG = Some v →
  py_int v = Some pid →
  pid ≠ 0 →
  liveness os pid = NOT_RUNNING →
  result (can_terminate os self id) w = inr false
  ∧ result (terminate os self id) w = inr true
  ∧ calls (terminate os self id) w = [RunCancelingReported run; ProcessKilled pid].
Proof.
  intros Hrun Hfin Htag Hint Hpid Hlive.
  destruct (observe _ _ _ _ _
    (can_terminate_pid os self id w run v pid Hrun Hfin Htag Hint Hpid))
    as (-> & _ & _).
  destruct (observe _ _ _ _ _
    (terminate_pid os self id w run v pid Hrun Hfin Htag Hint Hpid))
    as (-> & -> & _).
  by rewrite Hlive.
Qed.

Lemma terminate_signals_a_stale_pid_witness :
  let run := Sample.run_with_tag "4711" in
  let w := Sample.world_with run in
  liveness Scenario.dead_os 4711 = NOT_RUNNING
  ∧ result (can_terminate Scenario.dead_os Sample.launcher "run-1") w = inr false
  ∧ result (terminate Scenario.dead_os Sample.launcher "run-1") w = inr true
  ∧ calls (terminate Scenario.dead_os Sample.launcher "run-1") w
    = [RunCancelingReported run; ProcessKilled 4711].
Proof.
  intros run w. split; [reflexivity|].
  assert (4711 ≠ 0) as Hpid by discriminate.
  exact (terminate_signals_a_stale_pid Scenario.dead_os Sample.launcher "run-1" w
           run "4711" 4711 eq_refl eq_refl eq_refl eq_refl Hpid eq_refl).
Defined.

(** X4. Whenever [can_terminate] returns true, [terminate] in the same
    world returns true as well, and the pid it signals is the pid whose
    liveness [can_terminate] asked for. *)
Theorem can_terminate_implies_terminate os self id w :
  result (can_terminate os self id) w = inr true →
  ∃ run pid,
    runs w !! id = Some run
    ∧ calls (can_terminate os self id) w = [ProcessChecked pid]
    ∧ result (terminate os self id) w = inr true
    ∧ calls (terminate os self id) w = [RunCancelingReported run; ProcessKilled pid].
Proof.
  destruct (launcher_cases os self id w)
    as [[Hc _]|[(e & _ & Hc & _)|(run & v & pid & Hrun & _ & _ & _ & _ & Hc & Ht)]].
  - destruct (observe_unchanged _ _ _ Hc) as (-> & _). discriminate.
  - destruct (observe_unchanged _ _ _ Hc) as (-> & _). discriminate.
  - destruct (observe _ _ _ _ _ Hc) as (_ & -> & _).
    destruct (observe _ _ _ _ _ Ht) as (-> & -> & _).
    intros _. by exists run, pid.
Qed.

Lemma can_terminate_implies_terminate_witness :
  let run := Sample.run_with_tag "4711" in
  let w := Sample.world_with run in
  result (can_terminate Sample.os Sample.launcher "run-1") w = inr true
  ∧ ∃ run' pid,
      runs w !! "run-1" = Some run'
      ∧ calls (can_terminate Sample.os Sample.launcher "run-1") w = [ProcessChecked pid]
      ∧ result (terminate Sample.os Sample.launcher "run-1") w = inr true
      ∧ calls (terminate Sample.os Sample.launcher "run-1") w
        = [RunCancelingReported run'; ProcessKilled pid].
Proof.
  intros run w. split; [reflexivity|].
  exact (can_terminate_implies_terminate Sample.os Sample.launcher "run-1" w eq_refl).
Defined.


(** ** [process.py]: from [launch_run] to [can_terminate] and [terminate] *)

(** X6. The pid tag survives the trip through the tag store: for every
    integer pid, [_get_pid] on a run that is not finished and whose
    [process/pid] tag is the string that [launch_run] writes for that pid
    returns that pid, and calls nothing. *)
Theorem get_pid_reads_back_the_written_pid run pid w :
  is_finished run = false →
  tags run !! PID_TAG = Some (py_str pid) →
  _get_pid (Some run) w = (inr (Some pid), w).
Proof.
  intros Hfin Htag. unfold _get_pid.
  by rewrite Hfin, Htag, py_int_py_str.
Qed.

Lemma get_pid_reads_back_the_written_pid_witness :
  let run :=
    {| run_id := "run-1"; is_finished := false;
       tags := {[ PID_TAG := py_str (-3) ]} |} in
  _get_pid (Some run) Sample.empty_world = (inr (Some (-3)), Sample.empty_world).
Proof.
  intros run.
  exact (get_pid_reads_back_the_written_pid run (-3) Sample.empty_world
           eq_refl eq_refl).
Defined.

(** X7. After [launch_run] on a stored run that is not finished,
    [can_terminate] for that run asks for the liveness of the process that
    was just spawned (when its pid is not 0) and returns true if and only
    if it is RUNNING, whatever tags the run had before. *)
Theorem launched_run_can_terminate_iff_alive os self context w origin stored :
  pipeline_code_origin context = Some origin →
  runs w !! run_id (pipeline_run context) = Some stored →
  is_finished stored = false →
  let id := run_id (pipeline_run context) in
  let pid := spawn os {| pipeline_origin := origin;
                         pipeline_run_id := id;
                         instance_ref := get_ref (_instance self) |} in
  pid ≠ 0 →
  let launched := (launch_run os self context w).2 in
  calls (can_terminate os self id) launched = [ProcessChecked pid]
  ∧ ∃ b, result (can_terminate os self id) launched = inr b
         ∧ (b = true ↔ liveness os pid = RUNNING).
Proof.
  intros Horigin Hstored Hfin id pid Hpid launched.
  destruct (launch_then_can_terminate os self context w origin stored
              Horigin Hstored Hfin Hpid) as [Hres Hcalls].
  split; [exact Hcalls|]. eexists. split; [exact Hres|].
  fold id pid. by destruct (liveness os pid).
Qed.

Lemma launched_run_can_terminate_iff_alive_witness :
  let launched :=
    (launch_run Sample.os Sample.launcher Scenario.launch_context
       Scenario.stored_world).2 in
  4711 ≠ 0
  ∧ calls (can_terminate Sample.os Sample.launcher "run-1") launched
    = [ProcessChecked 4711]
  ∧ ∃ b, result (can_terminate Sample.os Sample.launcher "run-1") launched = inr b
         ∧ (b = true ↔ liveness Sample.os 4711 = RUNNING).
Proof.
  intros launched.
  assert (4711 ≠ 0) as Hpid by discriminate.
  split; [exact Hpid|].
  exact (launched_run_can_terminate_iff_alive Sample.os Sample.launcher
           Scenario.launch_context Scenario.stored_world "origin"
           Scenario.stored_run eq_refl eq_refl eq_refl Hpid).
Defined.

(** X8. After [launch_run] on a stored run that is not finished,
    [terminate] for that run notifies the cancellation and signals the
    process that was just spawned (when its pid is not 0), also when the
    run carried the pid tag of an earlier launch: the last launch wins. *)
Theorem launched_run_is_terminated_by_its_new_pid os self context w origin stored :
  pipeline_code_origin context = Some origin →
  runs w !! run_id (pipeline_run context) = Some stored →
  is_finished stored = false →
  let id := run_id (pipeline_run context) in
  let pid := spawn os {| pipeline_origin := origin;
                         pipeline_run_id := id;
                         instance_ref := get_ref (_instance self) |} in
  pid ≠ 0 →
  let launched := (launch_run os self context w).2 in
  result (terminate os self id) launched = inr true
  ∧ ∃ tagged,
      runs launched !! id = Some tagged
      ∧ tags tagged !! PID_TAG = Some (py_str pid)
      ∧ calls (terminate os self id) launched
        = [RunCancelingReported tagged; ProcessKilled pid].
Proof.
  intros Horigin Hstored Hfin id pid Hpid launched.
  destruct (launch_then_terminate os self context w origin stored
              Horigin Hstored Hfin Hpid) as [Hres Hcalls].
  destruct (launched_run_is_tagged os self context w origin stored
              Horigin Hstored Hfin) as (Hrun & _ & Htag).
  split; [exact Hres|]. eexists. split_and!; [exact Hrun|exact Htag|exact Hcalls].
Qed.

Lemma launched_run_is_terminated_by_its_new_pid_witness :
  let launched :=
    (launch_run Sample.os Sample.launcher Scenario.launch_context
       Scenario.stored_world).2 in
  tags Scenario.stored_run !! PID_TAG = Some "17"
  ∧ result (terminate Sample.os Sample.launcher "run-1") launched = inr true
  ∧ ∃ tagged,
      runs launched !! "run-1" = Some tagged
      ∧ tags tagged !! PID_TAG = Some (py_str 4711)
      ∧ calls (terminate Sample.os Sample.launcher "run-1") launched
        = [RunCancelingReported tagged; ProcessKilled 4711].
Proof.
  intros launched. split; [reflexivity|].
  assert (4711 ≠ 0) as Hpid by discriminate.
  exact (launched_run_is_terminated_by_its_new_pid Sample.os Sample.launcher
           Scenario.launch_context Scenario.stored_world "origin"
           Scenario.stored_run eq_refl eq_refl eq_refl Hpid).
Defined.


(** ** [metrics_utils.py]: all paths of [upload_cost_information] *)

Ltac stop_after_request a :=
  eexists _, [_]; split; [reflexivity|];
  right; exists a; split; [done|]; left; by eauto.

Ltac stop_after_open a :=
  eexists _, [_; _; _]; split; [reflexivity|];
  right; exists a; split; [done|]; right; left; by eauto.

(** The calls between the writing of the table and the removal of the
    temporary directory, on every path on which the imports succeed. *)
Lemma upload_paths env context metric_name (cost_information : list CostRecord) w :
  installed env "pyarrow" = true →
  installed env "pyarrow.parquet" = true →
  ∃ res middle,
    upload_cost_information env context metric_name cost_information w
    = (res, {| runs := runs w;
               trace := trace w ++
                 TempDirCreated (temp_dir env)
                 :: ParquetWritten (cost_pq_file env)
                      (built_table metric_name cost_information)
                 :: middle ++ [TempDirRemoved (temp_dir env)] |})
    ∧ ((variant (instance context) = PlainInstance ∧ middle = []
        ∧ ∃ e, res = inl e)
       ∨ ∃ a, variant (instance context) = CloudAgentInstance a
              ∧ ((middle = [HttpPost (upload_url_request a)] ∧ ∃ e, res = inl e)
                 ∨ (middle = [HttpPost (upload_url_request a);
                              FileOpened (cost_pq_file env);
                              FileClosed (cost_pq_file env)]
                    ∧ ∃ e, res = inl e)
                 ∨ ∃ r members dest form,
                     session_post (requests_managed_retries_session a)
                       (upload_url_request a) = inr r
                     ∧ is_success (status_code r) = true
                     ∧ json_body r = inr (JObj members)
                     ∧ members !! "url" = Some dest
                     ∧ members !! "fields" = Some form
                     ∧ middle = [HttpPost (upload_url_request a);
                                 FileOpened (cost_pq_file env);
                                 HttpPost (PostForm dest form (cost_pq_file env));
                                 FileClosed (cost_pq_file env)]
                     ∧ res = match session_post (requests_managed_retries_session a)
                                     (PostForm dest form (cost_pq_file env)) with
                             | inl e => inl e
                             | inr _ => inr tt
                             end)).
Proof.
  intros H1 H2. unfold cost_pq_file, upload_url_request.
  run_upload. rewrite H1, H2, cost_table_inr.
  cbn -[built_table os_path_join].
  destruct (variant (instance context)) as [|a] eqn:Hvariant; tidy_trace.
  { eexists _, []. split; [reflexivity|]. left. by eauto. }
  destruct (session_post _ _) as [e|r] eqn:Hpost; tidy_trace.
  { stop_after_request a. }
  destruct (is_success _) eqn:Hstatus; tidy_trace; [|stop_after_request a].
  destruct (json_body r) as [e|[| | | |items|members]] eqn:Hjson; tidy_trace;
    try stop_after_request a.
  - destruct (str_contains "url" s); [destruct (str_contains "fields" s)|];
      tidy_trace; first [stop_after_request a | stop_after_open a].
  - destruct (existsb _ items); [destruct (existsb _ items)|];
      tidy_trace; first [stop_after_request a | stop_after_open a].
  - destruct (members !! "url") as [dest|] eqn:Hurl;
      [destruct (members !! "fields") as [form|] eqn:Hfields|];
      tidy_trace; try stop_after_request a.
    exists (match session_post (requests_managed_retries_session a)
                    (PostForm dest form (os_path_join (temp_dir env) "cost.parquet")) with
            | inl e => inl e
            | inr _ => inr tt
            end),
      [HttpPost (PostRequest (dagster_cloud_gen_insights_url_url a)
                   (dagster_cloud_api_headers a DEPLOYMENT)
                   (dagster_cloud_api_timeout a) (dagster_cloud_api_proxies a));
       FileOpened (os_path_join (temp_dir env) "cost.parquet");
       HttpPost (PostForm dest form (os_path_join (temp_dir env) "cost.parquet"));
       FileClosed (os_path_join (temp_dir env) "cost.parquet")].
    split.
    + destruct (session_post _ (PostForm _ _ _)); by tidy_trace.
    + right. exists a. split; [done|]. right. right.
      by exists r, members, dest, form.
Qed.

(** X10. The temporary directory is removed on every way out.  Once the
    imports succeed, whatever the upload returns or raises, its first call
    creates the temporary directory, its last call removes that directory,
    and no call in between creates or removes one. *)
Theorem upload_always_removes_its_temporary_directory
    env context metric_name (cost_information : list CostRecord) w :
  installed env "pyarrow" = true →
  installed env "pyarrow.parquet" = true →
  ∃ body,
    calls (upload_cost_information env context metric_name cost_information) w
    = TempDirCreated (temp_dir env) :: body ++ [TempDirRemoved (temp_dir env)]
    ∧ count_events is_temp_dir_event body = 0%nat.
Proof.
  intros H1 H2.
  destruct (upload_paths env context metric_name cost_information w H1 H2)
    as (res & middle & Hrun & Hshape).
  apply observe in Hrun as (_ & -> & _).
  exists (ParquetWritten (cost_pq_file env) (built_table metric_name cost_information)
          :: middle).
  split; [done|].
  destruct Hshape as [(_ & -> & _)|(a & _ & [(-> & _)|[(-> & _)|Hpost]])];
    try reflexivity.
  destruct Hpost as (r & members & dest & form & _ & _ & _ & _ & _ & -> & _).
  reflexivity.
Qed.

Lemma upload_always_removes_its_temporary_directory_witness :
  let upload :=
    upload_cost_information Sample.all_installed
      {| instance := Sample.agent (Sample.session (inl Scenario.connection_error)
                                     (inl Scenario.connection_error)) |}
      "snowflake_credits" Sample.costs in
  result upload Sample.empty_world = inl Scenario.connection_error
  ∧ ∃ body,
      calls upload Sample.empty_world
      = TempDirCreated (temp_dir Sample.all_installed)
        :: body ++ [TempDirRemoved (temp_dir Sample.all_installed)]
      ∧ count_events is_temp_dir_event body = 0%nat.
Proof.
  intros upload. split; [reflexivity|].
  exact (upload_always_removes_its_temporary_directory Sample.all_installed _
           "snowflake_credits" Sample.costs Sample.empty_world eq_refl eq_refl).
Defined.

Ltac count_le_1 := first [exact (le_S 0 0 (le_n 0)) | exact (le_n 1)].

(** X11. The columnar file is opened at most once and every opening is
    followed by its closing: on every path on which the imports succeed
    the upload opens and closes the file equally often, the only file it
    opens is the one it wrote, and a file post happens only while the file
    is open. *)
Theorem upload_closes_the_file_it_opens
    env context metric_name (cost_information : list CostRecord) w :
  installed env "pyarrow" = true →
  installed env "pyarrow.parquet" = true →
  let evs := calls (upload_cost_information env context metric_name cost_information) w in
  count_events is_file_open evs = count_events is_file_close evs
  ∧ (count_events is_file_open evs ≤ 1)%nat
  ∧ (∀ path, FileOpened path ∈ evs → path = cost_pq_file env)
  ∧ (∀ call, HttpPost call ∈ evs → is_file_post (HttpPost call) = true →
       ∃ before after,
         evs = (before ++ [FileOpened (cost_pq_file env); HttpPost call;
                           FileClosed (cost_pq_file env)] ++ after)%list).
Proof.
  intros H1 H2 evs. subst evs.
  destruct (upload_paths env context metric_name cost_information w H1 H2)
    as (res & middle & Hrun & Hshape).
  apply observe in Hrun as (_ & -> & _).
  assert (∀ middle, 
    (∀ path, FileOpened path ∈ middle → path = cost_pq_file env) →
    ∀ path,
      FileOpened path
      ∈ TempDirCreated (temp_dir env)
        :: ParquetWritten (cost_pq_file env) (built_table metric_name cost_information)
        :: middle ++ [TempDirRemoved (temp_dir env)] →
      path = cost_pq_file env) as Hopen.
  { intros m Hm path. rewrite !elem_of_cons, elem_of_app, elem_of_cons, elem_of_nil.
    intros [|[|[|[|[]]]]]; try discriminate. by apply Hm. }
  assert (∀ middle call,
    HttpPost call
    ∈ TempDirCreated (temp_dir env)
      :: ParquetWritten (cost_pq_file env) (built_table metric_name cost_information)
      :: middle ++ [TempDirRemoved (temp_dir env)] →
    HttpPost call ∈ middle) as Hcall.
  { intros m call. rewrite !elem_of_cons, elem_of_app, elem_of_cons, elem_of_nil.
    intros [|[|[|[|[]]]]]; try discriminate. done. }
  destruct Hshape as [(_ & -> & _)|(a & _ & [(-> & _)|[(-> & _)|Hpost]])].
  - split_and!; [done|count_le_1|..].
    + apply Hopen. intros path Hin. by apply elem_of_nil in Hin.
    + intros call Hin%Hcall. by apply elem_of_nil in Hin.
  - split_and!; [done|count_le_1|..].
    + apply Hopen. intros path. rewrite elem_of_cons, elem_of_nil.
      intros [|[]]. discriminate.
    + intros call Hin%Hcall. revert Hin. rewrite elem_of_cons, elem_of_nil.
      intros [[= ->]|[]]. discriminate.
  - split_and!; [done|count_le_1|..].
    + apply Hopen. intros path. rewrite !elem_of_cons, elem_of_nil.
      intros [|[[= ->]|[|[]]]]; try discriminate. done.
    + intros call Hin%Hcall. revert Hin. rewrite !elem_of_cons, elem_of_nil.
      intros [[= ->]|[|[|[]]]]; discriminate.
  - destruct Hpost as (r & members & dest & form & _ & _ & _ & _ & _ & -> & _).
    split_and!; [done|count_le_1|..].
    + apply Hopen. intros path. rewrite !elem_of_cons, elem_of_nil.
      intros [|[[= ->]|[|[|[]]]]]; try discriminate. done.
    + intros call Hin%Hcall. revert Hin. rewrite !elem_of_cons, elem_of_nil.
      intros [[= ->]|[|[[= ->]|[|[]]]]]; try discriminate.
      intros _. by eexists [_; _; _], [_].
Qed.

Lemma upload_closes_the_file_it_opens_witness :
  let r := Sample.response 200 (inr Sample.destination) in
  let upload :=
    upload_cost_information Sample.all_installed
      {| instance := Sample.agent (Sample.session (inr r) (inl Scenario.connection_error)) |}
      "snowflake_credits" Sample.costs in
  let evs := calls upload Sample.empty_world in
  result upload Sample.empty_world = inl Scenario.connection_error
  ∧ count_events is_file_open evs = 1%nat
  ∧ count_events is_file_open evs = count_events is_file_close evs
  ∧ (count_events is_file_open evs ≤ 1)%nat
  ∧ (∀ path, FileOpened path ∈ evs → path = cost_pq_file Sample.all_installed)
  ∧ (∀ call, HttpPost call ∈ evs → is_file_post (HttpPost call) = true →
       ∃ before after,
         evs = (before ++ [FileOpened (cost_pq_file Sample.all_installed);
                           HttpPost call;
                           FileClosed (cost_pq_file Sample.all_installed)]
                ++ after)%list).
Proof.
  intros r upload evs. split; [reflexivity|]. split; [reflexivity|].
  exact (upload_closes_the_file_it_opens Sample.all_installed _
           "snowflake_credits" Sample.costs Sample.empty_world eq_refl eq_refl).
Defined.

(** X12. The upload makes at most two network calls, in a fixed order.  On
    every path on which the imports succeed its network calls are none, or
    the request for a destination alone, or that request followed by one
    post of the written file; the file post occurs only when the request
    was answered with a success status and an object with both keys, and it
    goes to the [url] member with the [fields] member as form data, both as
    received. *)
Theorem upload_network_calls
    env context metric_name (cost_information : list CostRecord) w :
  installed env "pyarrow" = true →
  installed env "pyarrow.parquet" = true →
  let sent := network_calls
                (calls (upload_cost_information env context metric_name
                          cost_information) w) in
  (variant (instance context) = PlainInstance ∧ sent = [])
  ∨ ∃ a, variant (instance context) = CloudAgentInstance a
         ∧ (sent = [upload_url_request a]
            ∨ ∃ r members dest form,
                session_post (requests_managed_retries_session a)
                  (upload_url_request a) = inr r
                ∧ is_success (status_code r) = true
                ∧ json_body r = inr (JObj members)
                ∧ members !! "url" = Some dest
                ∧ members !! "fields" = Some form
                ∧ sent = [upload_url_request a;
                          PostForm dest form (cost_pq_file env)]).
Proof.
  intros H1 H2 sent. subst sent.
  destruct (upload_paths env context metric_name cost_information w H1 H2)
    as (res & middle & Hrun & Hshape).
  apply observe in Hrun as (_ & -> & _).
  destruct Hshape as [(Hplain & -> & _)|(a & Ha & [(-> & _)|[(-> & _)|Hpost]])].
  - by left.
  - right. exists a. split; [done|]. by left.
  - right. exists a. split; [done|]. by left.
  - destruct Hpost as (r & members & dest & form & ? & ? & ? & ? & ? & -> & _).
    right. exists a. split; [done|]. right. by exists r, members, dest, form.
Qed.

Lemma upload_network_calls_witness :
  let r := Sample.response 200 (inr Sample.destination) in
  let context :=
    {| instance := Sample.agent (Sample.session (inr r) (inr r)) |} in
  let sent := network_calls
                (calls (upload_cost_information Sample.all_installed context
                          "snowflake_credits" Sample.costs) Sample.empty_world) in
  length sent = 2%nat
  ∧ ((variant (instance context) = PlainInstance ∧ sent = [])
     ∨ ∃ a, variant (instance context) = CloudAgentInstance a
            ∧ (sent = [upload_url_request a]
               ∨ ∃ r members dest form,
                   session_post (requests_managed_retries_session a)
                     (upload_url_request a) = inr r
                   ∧ is_success (status_code r) = true
                   ∧ json_body r = inr (JObj members)
                   ∧ members !! "url" = Some dest
                   ∧ members !! "fields" = Some form
                   ∧ sent = [upload_url_request a;
                             PostForm dest form (cost_pq_file Sample.all_installed)])).
Proof.
  intros r context sent. split; [reflexivity|].
  exact (upload_network_calls Sample.all_installed context
           "snowflake_credits" Sample.costs Sample.empty_world eq_refl eq_refl).
Defined.

(** *** Errors of the collaborators *)

(** The parser of the response body raises. *)
Lemma upload_json_error env context metric_name (cost_information : list CostRecord)
    w a r e :
  installed env "pyarrow" = true →
  installed env "pyarrow.parquet" = true →
  variant (instance context) = CloudAgentInstance a →
  session_post (requests_managed_retries_session a) (upload_url_request a) = inr r →
  is_success (status_code r) = true →
  json_body r = inl e →
  upload_cost_information env context metric_name cost_information w
  = (inl e,
     {| runs := runs w;
        trace := trace w ++
          [TempDirCreated (temp_dir env);
           ParquetWritten (cost_pq_file env) (built_table metric_name cost_information);
           HttpPost (upload_url_request a);
           TempDirRemoved (temp_dir env)] |}).
Proof.
  intros H1 H2 H3 H4 H5 H6. unfold cost_pq_file, upload_url_request in *.
  run_upload. rewrite H1, H2, cost_table_inr, H3. tidy_trace.
  rewrite H4. tidy_trace. rewrite H5. tidy_trace. rewrite H6. by tidy_trace.
Qed.

(** X13. An exception of a collaborator reaches the caller as it is, after
    the clean-up.  On an agent instance, when the session raises on the
    request for a destination, when the parser of the response body
    raises, or when the session raises on the file post, the upload raises
    that same exception; before that the file, if it was opened, has been
    closed and the temporary directory has been removed, and the file post
    is not attempted in the first two cases. *)
Theorem upload_propagates_collaborator_errors
    env context metric_name (cost_information : list CostRecord) w a e :
  installed env "pyarrow" = true →
  installed env "pyarrow.parquet" = true →
  variant (instance context) = CloudAgentInstance a →
  let upload := upload_cost_information env context metric_name cost_information in
  let session := requests_managed_retries_session a in
  let written :=
    ParquetWritten (cost_pq_file env) (built_table metric_name cost_information) in
  (session_post session (upload_url_request a) = inl e →
     result upload w = inl e
     ∧ calls upload w = [TempDirCreated (temp_dir env); written;
                         HttpPost (upload_url_request a);
                         TempDirRemoved (temp_dir env)])
  ∧ (∀ r, session_post session (upload_url_request a) = inr r →
          is_success (status_code r) = true →
          json_body r = inl e →
          result upload w = inl e
          ∧ calls upload w = [TempDirCreated (temp_dir env); written;
                              HttpPost (upload_url_request a);
                              TempDirRemoved (temp_dir env)])
  ∧ (∀ r members dest form,
       session_post session (upload_url_request a) = inr r →
       is_success (status_code r) = true →
       json_body r = inr (JObj members) →
       members !! "url" = Some dest →
       members !! "fields" = Some form →
       session_post session (PostForm dest form (cost_pq_file env)) = inl e →
       result upload w = inl e
       ∧ calls upload w = [TempDirCreated (temp_dir env); written;
                           HttpPost (upload_url_request a);
                           FileOpened (cost_pq_file env);
                           HttpPost (PostForm dest form (cost_pq_file env));
                           FileClosed (cost_pq_file env);
                           TempDirRemoved (temp_dir env)]).
Proof.
  intros H1 H2 H3 upload session written. split_and!.
  - intros Hpost.
    destruct (observe upload w _ _ _
      (upload_request_raises env context metric_name cost_information w a
         H1 H2 H3 e Hpost)) as (-> & -> & _).
    done.
  - intros r Hpost Hstatus Hjson.
    destruct (observe upload w _ _ _
      (upload_json_error env context metric_name cost_information w a r e
         H1 H2 H3 Hpost Hstatus Hjson)) as (-> & -> & _).
    done.
  - intros r members dest form Hpost Hstatus Hjson Hurl Hfields Hfile.
    destruct (observe upload w _ _ _
      (upload_posts_file env context metric_name cost_information w a
         H1 H2 H3 r members dest form Hpost Hstatus Hjson Hurl Hfields))
      as (-> & -> & _).
    fold session. by rewrite Hfile.
Qed.

Lemma upload_propagates_collaborator_errors_witness :
  let r := Sample.response 200 (inr Sample.destination) in
  let s := Sample.session (inr r) (inl Scenario.connection_error) in
  let context := {| instance := Sample.agent s |} in
  let upload :=
    upload_cost_information Sample.all_installed context
      "snowflake_credits" Sample.costs in
  let path := cost_pq_file Sample.all_installed in
  result upload Sample.empty_world = inl Scenario.connection_error
  ∧ calls upload Sample.empty_world
    = [TempDirCreated (temp_dir Sample.all_installed);
       ParquetWritten path (built_table "snowflake_credits" Sample.costs);
       HttpPost (upload_url_request (Sample.attrs s));
       FileOpened path;
       HttpPost (PostForm Sample.destination_url Sample.destination_fields path);
       FileClosed path;
       TempDirRemoved (temp_dir Sample.all_installed)].
Proof.
  intros r s context upload path.
  destruct (upload_propagates_collaborator_errors Sample.all_installed context
              "snowflake_credits" Sample.costs Sample.empty_world (Sample.attrs s)
              Scenario.connection_error eq_refl eq_refl eq_refl)
    as (_ & _ & Hfile).
  exact (Hfile r Sample.destination_members Sample.destination_url
           Sample.destination_fields eq_refl eq_refl eq_refl eq_refl eq_refl
           eq_refl).
Defined.

(** ** [metrics_utils.py]: [put_cost_information] and the imports *)

(** X14. [put_cost_information] reports every import error as a missing
    extra, not only a missing [pyarrow].  When [pyarrow] is installed and
    the session raises an [ImportError] (or a subclass of it) on the request
    for a destination, the caller gets the message about installing the
    insights extra, with that error as its cause, although the table has
    been written and the request has been sent. *)
Theorem put_reports_a_late_import_error_as_missing_extra
    env context metric_name (cost_information : list CostRecord) start end_ w a e :
  installed env "pyarrow" = true →
  installed env "pyarrow.parquet" = true →
  variant (instance context) = CloudAgentInstance a →
  session_post (requests_managed_retries_session a) (upload_url_request a) = inl e →
  isinstance e ImportError = true →
  let put := put_cost_information env context metric_name cost_information
               start end_ in
  result put w = inl (Exn Exception (Msg INSTALL_EXTRA) (Some e))
  ∧ tables_written (calls put w)
    = [(cost_pq_file env, built_table metric_name cost_information)]
  ∧ network_calls (calls put w) = [upload_url_request a].
Proof.
  intros H1 H2 H3 Hpost Himport put.
  pose proof (upload_request_raises env context metric_name cost_information w a
                H1 H2 H3 e Hpost) as Hinner.
  assert (put w
          = (inl (Exn Exception (Msg INSTALL_EXTRA) (Some e)),
             {| runs := runs w;
                trace := trace w ++
                  [TempDirCreated (temp_dir env);
                   ParquetWritten (cost_pq_file env)
                     (built_table metric_name cost_information);
                   HttpPost (upload_url_request a);
                   TempDirRemoved (temp_dir env)] |})) as Hput.
  { unfold put, put_cost_information, try_except. by rewrite Hinner, Himport. }
  destruct (observe put w _ _ _ Hput) as (-> & -> & _). done.
Qed.

Lemma put_reports_a_late_import_error_as_missing_extra_witness :
  let s := Sample.session (inl Scenario.import_error) (inl Scenario.import_error) in
  let context := {| instance := Sample.agent s |} in
  let put := put_cost_information Sample.all_installed context
               "snowflake_credits" Sample.costs 0%float 1%float in
  isinstance Scenario.import_error ImportError = true
  ∧ result put Sample.empty_world
    = inl (Exn Exception (Msg INSTALL_EXTRA) (Some Scenario.import_error))
  ∧ tables_written (calls put Sample.empty_world)
    = [(cost_pq_file Sample.all_installed,
        built_table "snowflake_credits" Sample.costs)]
  ∧ network_calls (calls put Sample.empty_world)
    = [upload_url_request (Sample.attrs s)].
Proof.
  intros s context put. split; [reflexivity|].
  exact (put_reports_a_late_import_error_as_missing_extra Sample.all_installed
           context "snowflake_credits" Sample.costs 0%float 1%float
           Sample.empty_world (Sample.attrs s) Scenario.import_error
           eq_refl eq_refl eq_refl eq_refl eq_refl).
Defined.

(** X15. A missing module is found before anything else is done.  When
    [pyarrow] or [pyarrow.parquet] cannot be imported, the upload raises
    [ModuleNotFoundError] and leaves the world as it was: no temporary
    directory, no file, no request.  This holds on every instance, so on an
    instance that is not an agent instance the import error wins over the
    configuration error, and [put_cost_information] reports the missing
    extra. *)
Theorem missing_module_is_detected_first
    env context metric_name (cost_information : list CostRecord) start end_ w :
  installed env "pyarrow" = false ∨ installed env "pyarrow.parquet" = false →
  ∃ e,
    exn_class e = ModuleNotFoundError
    ∧ upload_cost_information env context metric_name cost_information w = (inl e, w)
    ∧ put_cost_information env context metric_name cost_information start end_ w
      = (inl (Exn Exception (Msg INSTALL_EXTRA) (Some e)), w).
Proof.
  intros Hmissing.
  destruct (upload_missing_dependency env context metric_name cost_information w
              Hmissing) as (e & Hinner & Hcls).
  exists e. split_and!; [done..|].
  unfold put_cost_information, try_except. rewrite Hinner.
  unfold isinstance. by rewrite Hcls.
Qed.

Lemma missing_module_is_detected_first_witness :
  let context := {| instance := Sample.plain |} in
  installed Scenario.only_pyarrow "pyarrow" = true
  ∧ installed Scenario.only_pyarrow "pyarrow.parquet" = false
  ∧ ∃ e,
      exn_class e = ModuleNotFoundError
      ∧ upload_cost_information Scenario.only_pyarrow context
          "snowflake_credits" Sample.costs Sample.empty_world
        = (inl e, Sample.empty_world)
      ∧ put_cost_information Scenario.only_pyarrow context
          "snowflake_credits" Sample.costs 0%float 1%float Sample.empty_world
        = (inl (Exn Exception (Msg INSTALL_EXTRA) (Some e)), Sample.empty_world).
Proof.
  intros context. split; [reflexivity|]. split; [reflexivity|].
  exact (missing_module_is_detected_first Scenario.only_pyarrow context
           "snowflake_credits" Sample.costs 0%float 1%float Sample.empty_world
           (or_intror eq_refl)).
Defined.

(** X16. A response body that parses to something other than an object
    never leads to a file post.  For null, a boolean or a number the
    membership test raises a [TypeError]; a list or a string passes the
    assertion only if it contains both words, and then the subscript raises
    a [TypeError]; otherwise the assertion fails.  In every case the request
    for a destination stays the only network call. *)
Theorem upload_of_a_non_object_answer_never_posts
    env context metric_name (cost_information : list CostRecord) w a r doc :
  installed env "pyarrow" = true →
  installed env "pyarrow.parquet" = true →
  variant (instance context) = CloudAgentInstance a →
  session_post (requests_managed_retries_session a) (upload_url_request a) = inr r →
  is_success (status_code r) = true →
  json_body r = inr doc →
  (∀ members, doc ≠ JObj members) →
  let upload := upload_cost_information env context metric_name cost_information in
  ∃ e,
    result upload w = inl e
    ∧ (exn_class e = AssertionError ∨ exn_class e = TypeError)
    ∧ network_calls (calls upload w) = [upload_url_request a].
Proof.
  intros H1 H2 H3 H4 H5 H6 Hdoc upload.
  apply (upload_without_destination_never_posts env context metric_name
           cost_information w a r doc H1 H2 H3 H4 H5 H6).
  intros members ->. by destruct (Hdoc members).
Qed.

Lemma upload_of_a_non_object_answer_never_posts_witness :
  let doc := JStr "use the url with these fields" in
  let r := Sample.response 200 (inr doc) in
  let s := Sample.session (inr r) (inr r) in
  let upload :=
    upload_cost_information Sample.all_installed {| instance := Sample.agent s |}
      "snowflake_credits" Sample.costs in
  result upload Sample.empty_world
  = inl (Exn TypeError (Msg "string indices must be integers") None)
  ∧ ∃ e,
      result upload Sample.empty_world = inl e
      ∧ (exn_class e = AssertionError ∨ exn_class e = TypeError)
      ∧ network_calls (calls upload Sample.empty_world)
        = [upload_url_request (Sample.attrs s)].
Proof.
  intros doc r s upload. split; [reflexivity|].
  assert (∀ members, doc ≠ JObj members) as Hdoc by (intros members; discriminate).
  exact (upload_of_a_non_object_answer_never_posts Sample.all_installed
           {| instance := Sample.agent s |} "snowflake_credits" Sample.costs
           Sample.empty_world (Sample.attrs s) r doc
           eq_refl eq_refl eq_refl eq_refl eq_refl eq_refl Hdoc).
Defined.

(** ** [metrics_utils.py]: the table of [upload_cost_information] *)

(** X17. Nothing of the records is lost in the table.  Reading the rows of
    the table that the uploader builds gives back the list of records: the
    same records, in the same order, repeated records included; hence two
    lists of records with the same table are equal. *)
Theorem cost_table_keeps_the_records metric_name (cost_information : list CostRecord) :
  (∃ t, cost_table metric_name cost_information = inr t
        ∧ table_records t = Some cost_information)
  ∧ (∀ other_name other_information,
       cost_table metric_name cost_information
       = cost_table other_name other_information →
       cost_information = other_information).
Proof.
  assert (∀ name (l : list CostRecord),
            table_records (built_table name l) = Some l) as Hread.
  { intros name l. unfold table_records. apply mapM_Some.
    destruct (cost_table_well_formed name l _ (cost_table_inr name l)) as [_ ->].
    apply Forall2_same_length_lookup. split; [by rewrite length_seq|].
    intros i k [[o c] q] Hk Hi.
    apply lookup_seq in Hk as [-> _]. simpl.
    destruct (cost_table_row name l _ i o c q (cost_table_inr name l) Hi)
      as (Ho & Hc & _ & Hq).
    unfold table_record. by rewrite Ho, Hc, Hq. }
  split.
  - exists (built_table metric_name cost_information).
    split; [apply cost_table_inr|apply Hread].
  - intros other_name other_information. rewrite !cost_table_inr.
    intros Heq.
    assert (built_table metric_name cost_information
            = built_table other_name other_information) as Ht by congruence.
    pose proof (Hread metric_name cost_information) as Hmine.
    pose proof (Hread other_name other_information) as Hother.
    rewrite Ht in Hmine. congruence.
Qed.



(** ** [metrics_utils.py]: [query_graphql_from_instance] *)

(** X19. [query_graphql_from_instance] needs an agent instance, and checks
    that first.  On any other instance it raises the same runtime error as
    the uploader, whatever the query text and the variables are: the text
    is not parsed and the client is not used, so the answer does not depend
    on the [gql] package at all. *)
Theorem query_graphql_needs_an_agent_instance package inst query_text variables w :
  variant inst = PlainInstance →
  query_graphql_from_instance package inst query_text variables w
  = (inl (Exn RuntimeError (Msg NOT_IN_CLOUD) None), w).
Proof.
  intros Hplain.
  unfold query_graphql_from_instance, get_url_and_token_from_instance, bind,
    raise_msg, raise.
  by rewrite Hplain.
Qed.

Lemma query_graphql_needs_an_agent_instance_witness :
  variant Sample.plain = PlainInstance
  ∧ query_graphql_from_instance Scenario.refusing_package Sample.plain
      "not a query {" None Sample.empty_world
    = (inl (Exn RuntimeError (Msg NOT_IN_CLOUD) None), Sample.empty_world).
Proof.
  split; [reflexivity|].
  exact (query_graphql_needs_an_agent_instance Scenario.refusing_package
           Sample.plain "not a query {" None Sample.empty_world eq_refl).
Defined.

(** X20. On an agent instance, [query_graphql_from_instance] takes only
    the web URL and the agent token from the instance.  A text that the
    parser refuses raises the error of the parser and the client is not
    used; otherwise the result is what the client answers for a transport
    with the URL made of the web URL followed by [graphql], a time-out of
    300 and the token as its only header, with the schema fetched from the
    transport, and with the given variables, or no variables when they are
    omitted or empty.  So two agent instances with the same web URL and
    token give the same result, whatever their API time-out, headers,
    proxies and session are. *)
Theorem query_graphql_uses_url_and_token_only
    package inst a query_text variables w :
  variant inst = CloudAgentInstance a →
  let query := query_graphql_from_instance package in
  let client :=
    {| transport :=
         {| transport_url := dagit_url a +:+ "graphql";
            use_json := true;
            transport_timeout := 300;
            transport_headers :=
              {[ "Dagster-Cloud-Api-Token" := dagster_cloud_agent_token a ]} |};
       fetch_schema_from_transport := true |} in
  (∀ e, gql package query_text = inl e →
        query inst query_text variables w = (inl e, w))
  ∧ (∀ document, gql package query_text = inr document →
        query inst query_text variables w
        = (execute package client document (default ∅ variables), w))
  ∧ query inst query_text None w = query inst query_text (Some ∅) w
  ∧ (∀ inst' a', variant inst' = CloudAgentInstance a' →
       dagit_url a' = dagit_url a →
       dagster_cloud_agent_token a' = dagster_cloud_agent_token a →
       query inst' query_text variables w = query inst query_text variables w).
Proof.
  intros Hagent query client.
  assert (∀ inst' a' vars, variant inst' = CloudAgentInstance a' →
            dagit_url a' = dagit_url a →
            dagster_cloud_agent_token a' = dagster_cloud_agent_token a →
            query inst' query_text vars w
            = match gql package query_text with
              | inl e => (inl e, w)
              | inr document =>
                  (execute package client document (default ∅ vars), w)
              end) as Hquery.
  { intros inst' a' vars Hagent' Hurl Htoken.
    unfold query, query_graphql_from_instance, get_url_and_token_from_instance,
      bind, lift, ret, raise.
    rewrite Hagent', Hurl, Htoken. fold client.
    assert (or_dict vars = default ∅ vars) as ->.
    { destruct vars as [m|]; [|done]. simpl. by destruct (decide (m = ∅)). }
    destruct (gql package query_text) as [e|document]; [done|].
    by destruct (execute package client document (default ∅ vars)). }
  split_and!.
  - intros e He. by rewrite (Hquery inst a variables Hagent eq_refl eq_refl), He.
  - intros document Hd.
    by rewrite (Hquery inst a variables Hagent eq_refl eq_refl), Hd.
  - by rewrite !(Hquery inst a _ Hagent eq_refl eq_refl).
  - intros inst' a' Hagent' Hurl Htoken.
    by rewrite (Hquery inst' a' variables Hagent' Hurl Htoken),
      (Hquery inst a variables Hagent eq_refl eq_refl).
Qed.

Lemma query_graphql_uses_url_and_token_only_witness :
  let inst := Sample.agent (Sample.session (inl Scenario.connection_error)
                              (inl Scenario.connection_error)) in
  let inst' := {| variant := CloudAgentInstance Scenario.other_attrs;
                  get_ref := "other-ref" |} in
  let query := query_graphql_from_instance Scenario.echo_package in
  result (query inst "{ version }" None) Sample.empty_world
  = inr (JObj {[ "url" := JStr "https://org.dagster.cloud/prod/graphql";
                 "timeout" := JNum "300";
                 "variables" := JObj ∅ ]})
  ∧ query inst' "{ version }" None Sample.empty_world
    = query inst "{ version }" None Sample.empty_world.
Proof.
  intros inst inst' query.
  destruct (query_graphql_uses_url_and_token_only Scenario.echo_package inst
              (Sample.attrs (Sample.session (inl Scenario.connection_error)
                               (inl Scenario.connection_error)))
              "{ version }" None Sample.empty_world eq_refl)
    as (_ & Hanswer & _ & Hsame).
  split.
  - exact (f_equal fst (Hanswer (Document "{ version }") eq_refl)).
  - exact (Hsame inst' Scenario.other_attrs eq_refl eq_refl eq_refl).
Defined.

(** X21. When the upload returns normally.  [upload_cost_information]
    returns without an error if and only if both modules can be imported,
    the instance is an agent instance, the request for a destination is
    answered with a success status and a body that parses to an object with
    the keys [url] and [fields], and the session returns a response, of
    whatever status, for the post of the file to that destination.  On
    every other input it raises. *)
Theorem upload_returns_iff_both_calls_are_answered
    env context metric_name (cost_information : list CostRecord) w :
  result (upload_cost_information env context metric_name cost_information) w = inr tt
  ↔ installed env "pyarrow" = true
    ∧ installed env "pyarrow.parquet" = true
    ∧ ∃ a r members dest form r2,
        variant (instance context) = CloudAgentInstance a
        ∧ session_post (requests_managed_retries_session a) (upload_url_request a)
          = inr r
        ∧ is_success (status_code r) = true
        ∧ json_body r = inr (JObj members)
        ∧ members !! "url" = Some dest
        ∧ members !! "fields" = Some form
        ∧ session_post (requests_managed_retries_session a)
            (PostForm dest form (cost_pq_file env)) = inr r2.
Proof.
  split.
  - intros Hres.
    destruct (installed env "pyarrow") eqn:H1.
    2: { destruct (upload_missing_dependency env context metric_name
                     cost_information w (or_introl H1)) as (e & Hrun & _).
         unfold result in Hres. by rewrite Hrun in Hres. }
    destruct (installed env "pyarrow.parquet") eqn:H2.
    2: { destruct (upload_missing_dependency env context metric_name
                     cost_information w (or_intror H2)) as (e & Hrun & _).
         unfold result in Hres. by rewrite Hrun in Hres. }
    split; [done|]. split; [done|].
    destruct (upload_paths env context metric_name cost_information w H1 H2)
      as (res & middle & Hrun & Hshape).
    apply observe in Hrun as (Hres' & _ & _). rewrite Hres in Hres'. subst res.
    destruct Hshape as [(_ & _ & e & ?)|(a & Ha & [(_ & e & ?)|[(_ & e & ?)|Hpost]])];
      try discriminate.
    destruct Hpost as (r & members & dest & form & ? & ? & ? & ? & ? & _ & Hlast).
    destruct (session_post _ (PostForm _ _ _)) as [e|r2] eqn:Hfile; [discriminate|].
    by exists a, r, members, dest, form, r2.
  - intros (H1 & H2 & a & r & members & dest & form & r2
            & Ha & Hpost & Hstatus & Hjson & Hurl & Hfields & Hfile).
    destruct (observe _ w _ _ _
      (upload_posts_file env context metric_name cost_information w a
         H1 H2 Ha r members dest form Hpost Hstatus Hjson Hurl Hfields))
      as (-> & _ & _).
    by rewrite Hfile.
Qed.
